(** * LinkSqueezer: a shallow embedding of the request handlers

    The repository is one Express application ([server.js]) together with
    its earlier, unauthenticated revision ([unnamed/part_000]).  Every
    handler reads or writes three SQLite tables and answers with JSON or a
    redirect.  The tables are modelled as lists of rows in insertion order,
    the handlers as computations in a small state-and-exception monad over
    the database, the random generator and the clock, and the libraries the
    handlers call (nanoid, bcryptjs, jsonwebtoken) as parameters of the
    development.

    Strings are sequences of code units; the body fields and headers of a
    request are [option string], [None] standing for [undefined]. *)

From Stdlib Require Import ZArith String Ascii List Permutation.
From stdpp Require Import base decidable option list sorting strings gmap.

Local Open Scope Z_scope.
Local Open Scope string_scope.
Local Open Scope list_scope.

(** ** JSON values, as [res.json] serialises them *)

#[local] Set Warnings "-register-all".

Inductive JSON : Type :=
| JNull
| JBool (b : bool)
| JNum (n : Z)
| JStr (s : string)
| JArr (items : list JSON)
| JObj (fields : list (string * JSON)).

(** [{ success: true, data: payload }] *)
Definition success_body (payload : JSON) : JSON :=
  JObj [("success", JBool true); ("data", payload)].

(** [{ error: msg }] *)
Definition error_body (msg : string) : JSON :=
  JObj [("error", JStr msg)].

(** The shape test of the success envelope, as a boolean. *)
Definition is_success_envelope (body : JSON) : bool :=
  match body with
  | JObj [(k1, JBool true); (k2, _)] =>
      bool_decide (k1 = "success") && bool_decide (k2 = "data")
  | _ => false
  end.

Definition nullable (v : option string) : JSON :=
  match v with
  | Some s => JStr s
  | None => JNull
  end.

(** A key whose value is [undefined] is dropped by [JSON.stringify]. *)
Definition optional_field (k : string) (v : option string) : list (string * JSON) :=
  match v with
  | Some s => [(k, JStr s)]
  | None => []
  end.

(** ** JavaScript operators on possibly-undefined strings *)

(** Truthiness: [undefined] and the empty string are falsy. *)
Definition truthy (v : option string) : bool :=
  match v with
  | Some s => negb (bool_decide (s = ""))
  | None => false
  end.

(** [!v] *)
Definition js_not (v : option string) : bool := negb (truthy v).

(** [v || null], the value bound to an SQL parameter. *)
Definition js_or_null (v : option string) : option string :=
  if truthy v then v else None.

(** The string behind a value already known to be truthy. *)
Definition str (v : option string) : string := default "" v.

(** [hay.includes(needle)] *)
Fixpoint includes (needle hay : string) : bool :=
  String.prefix needle hay ||
  match hay with
  | EmptyString => false
  | String _ rest => includes needle rest
  end.

(** [s.split(sep)] for a one-character separator. *)
Fixpoint split (sep : ascii) (s : string) : list string :=
  match s with
  | EmptyString => [EmptyString]
  | String c rest =>
      if Ascii.eqb c sep then EmptyString :: split sep rest
      else match split sep rest with
           | seg :: segs => String c seg :: segs
           | [] => [String c EmptyString]
           end
  end.

(** Whether a character occurs in a string. *)
Fixpoint occurs (c : ascii) (s : string) : bool :=
  match s with
  | EmptyString => false
  | String d rest => Ascii.eqb d c || occurs c rest
  end.

Definition space : ascii := " "%char.

(** ** Rows of the three tables *)

Record User := mkUser {
  user_id : string;
  user_email : string;
  user_password_hash : string;
  user_created_at : string
}.

Record Link := mkLink {
  link_id : string;
  link_user_id : string;
  original_url : string;
  short_code : string;
  title : option string;
  is_active : Z;
  link_created_at : string
}.

Record Click := mkClick {
  click_id : string;
  click_link_id : string;
  user_agent : option string;
  referer : option string;
  country : option string;
  click_created_at : string
}.

(** The payload of a session token, [{ id, email }]. *)
Record Payload := mkPayload {
  payload_id : string;
  payload_email : string
}.

(** The request headers the handlers read. *)
Record Headers := mkHeaders {
  authorization : option string;
  header_user_agent : option string;
  header_referer : option string
}.

(** What a handler answers with.  [ResUncaught] is an exception that left
    the handler: no [res.json] and no [res.redirect] was reached, and
    Express's default error middleware answers 500 by itself.  [ResNoRoute]
    is a request no route matches. *)
Inductive Response : Type :=
| ResJson (status : nat) (body : JSON)
| ResRedirect (status : nat) (location : string)
| ResUncaught (message : string)
| ResNoRoute.

Inductive Request : Type :=
| PostRegister (email password : option string)
| PostLogin (email password : option string)
| PostLinks (headers : Headers) (originalUrl title customCode : option string)
| GetLinks (headers : Headers)
| GetShortCode (headers : Headers) (shortCode : string)
| GetAnalytics (id : string)
| GetHealth.

Definition is_redirect_to (url : string) (r : Response) : bool :=
  match r with
  | ResRedirect _ location => bool_decide (location = url)
  | _ => false
  end.

(** ** SQL expressions of the analytics queries *)

(** [DATE(created_at)] of a [CURRENT_TIMESTAMP] value
    ["YYYY-MM-DD HH:MM:SS"]: its first ten characters. *)
Definition DATE (created_at : string) : string := substring 0 10 created_at.

(** [ORDER BY date DESC] compares the date strings bytewise. *)
Definition date_desc (a b : string * nat) : Prop := String.le (fst b) (fst a).

Global Instance date_desc_dec : RelDecision date_desc.
Proof. intros a b. unfold date_desc. apply _. Defined.

Global Instance date_desc_total : Total date_desc.
Proof. intros a b. unfold date_desc. destruct (total String.le (fst a) (fst b)); auto. Qed.

Global Instance date_desc_trans : Transitive date_desc.
Proof. intros a b c H1 H2. unfold date_desc in *. by etrans. Qed.

(** ** The platform, the store and the handler monad *)

(** What the handlers take from their environment: the random generator
    and the wall clock, the three libraries, and the configuration. *)
Class Platform := {
  (** The state of the random generator and the wall clock. *)
  Entropy : Type;
  Time : Type;
  (** [nanoid(size)] draws an identifier and advances the generator. *)
  nanoid : nat -> Entropy -> string * Entropy;
  (** [bcrypt.hash(password, 10)] salts from the generator;
      [bcrypt.compare(password, hash)]. *)
  bcrypt_hash : string -> Entropy -> string * Entropy;
  bcrypt_compare : string -> string -> bool;
  (** [jwt.sign(payload, JWT_SECRET, { expiresIn: '7d' })] at a given time,
      [jwt.verify(token, JWT_SECRET)] at a given time ([None] is the error
      case of the callback) and the decoding of a token's payload. *)
  jwt_sign : Payload -> Time -> string;
  jwt_verify : string -> Time -> option Payload;
  jwt_decode : string -> option Payload;
  (** [CURRENT_TIMESTAMP] and [new Date().toISOString()]. *)
  CURRENT_TIMESTAMP : Time -> string;
  toISOString : Time -> string;
  (** [process.env.PORT || 3000], as it is interpolated in the short URL. *)
  PORT : string;
  (** Whether the connection enforces the declared [FOREIGN KEY]s. *)
  foreign_keys : bool
}.

(** The contracts of the libraries that the properties below rely on. *)
Definition nanoid_sized `{Platform} : Prop :=
  forall size g, String.length (fst (nanoid size g)) = size.

Definition bcrypt_sound `{Platform} : Prop :=
  forall password g, bcrypt_compare password (fst (bcrypt_hash password g)) = true.

Definition jwt_decodes `{Platform} : Prop :=
  forall p t, jwt_decode (jwt_sign p t) = Some p.

(** How a computation ends: with a value, or with a thrown error whose
    [message] a [catch] can inspect. *)
Inductive Outcome (A : Type) : Type :=
| Ok (a : A)
| Throw (message : string).
Arguments Ok {A} a.
Arguments Throw {A} message.

Section Model.

Context `{Platform}.

Record World := mkWorld {
  users : list User;
  links : list Link;
  clicks : list Click;
  rng : Entropy;
  clock : Time
}.

Definition M (A : Type) : Type := World -> Outcome A * World.

Definition ret {A} (a : A) : M A := fun w => (Ok a, w).

Definition bind {A B} (m : M A) (k : A -> M B) : M B :=
  fun w =>
    match m w with
    | (Ok a, w') => k a w'
    | (Throw e, w') => (Throw e, w')
    end.

(** [try { body } catch (err) { handler(err.message) }] *)
Definition try_catch {A} (body : M A) (handler : string -> M A) : M A :=
  fun w =>
    match body w with
    | (Ok a, w') => (Ok a, w')
    | (Throw e, w') => handler e w'
    end.

Notation "'let*' x ':=' m 'in' k" := (bind m (fun x => k))
  (at level 10, x name, m at level 100, k at level 200).
Notation "m ';;' k" := (bind m (fun _ => k))
  (at level 100, k at level 200, right associativity).

Definition draw_nanoid (size : nat) : M string :=
  fun w =>
    let (s, g) := nanoid size (rng w) in
    (Ok s, mkWorld (users w) (links w) (clicks w) g (clock w)).

Definition hash_password (password : string) : M string :=
  fun w =>
    let (h, g) := bcrypt_hash password (rng w) in
    (Ok h, mkWorld (users w) (links w) (clicks w) g (clock w)).

Definition sign_token (p : Payload) : M string :=
  fun w => (Ok (jwt_sign p (clock w)), w).

(** *** Statements *)

(** [INSERT INTO users (id, email, password_hash)]: [id] is the primary
    key and [email] is [UNIQUE]. *)
Definition insert_user (id email hash : string) : M unit :=
  fun w =>
    if bool_decide (id ∈ user_id <$> users w) then
      (Throw "UNIQUE constraint failed: users.id", w)
    else if bool_decide (email ∈ user_email <$> users w) then
      (Throw "UNIQUE constraint failed: users.email", w)
    else
      (Ok tt,
       mkWorld (users w ++ [mkUser id email hash (CURRENT_TIMESTAMP (clock w))])
               (links w) (clicks w) (rng w) (clock w)).

(** [INSERT INTO links (id, user_id, original_url, short_code, title)]:
    [id] is the primary key, [short_code] is [UNIQUE], [user_id]
    references [users(id)] and [is_active] defaults to 1. *)
Definition insert_link (id owner url code : string) (ttl : option string) : M unit :=
  fun w =>
    if bool_decide (id ∈ link_id <$> links w) then
      (Throw "UNIQUE constraint failed: links.id", w)
    else if bool_decide (code ∈ short_code <$> links w) then
      (Throw "UNIQUE constraint failed: links.short_code", w)
    else if foreign_keys && negb (bool_decide (owner ∈ user_id <$> users w)) then
      (Throw "FOREIGN KEY constraint failed", w)
    else
      (Ok tt,
       mkWorld (users w)
               (links w ++ [mkLink id owner url code ttl 1 (CURRENT_TIMESTAMP (clock w))])
               (clicks w) (rng w) (clock w)).

(** [INSERT INTO clicks (id, link_id, user_agent, referer)]: [id] is the
    primary key and [link_id] references [links(id)]. *)
Definition insert_click (id lid : string) (ua ref : option string) : M unit :=
  fun w =>
    if bool_decide (id ∈ click_id <$> clicks w) then
      (Throw "UNIQUE constraint failed: clicks.id", w)
    else if foreign_keys && negb (bool_decide (lid ∈ link_id <$> links w)) then
      (Throw "FOREIGN KEY constraint failed", w)
    else
      (Ok tt,
       mkWorld (users w) (links w)
               (clicks w ++ [mkClick id lid ua ref None (CURRENT_TIMESTAMP (clock w))])
               (rng w) (clock w)).

(** [SELECT * FROM users WHERE email = ?], first row. *)
Definition select_user_by_email (email : string) : M (option User) :=
  fun w => (Ok (List.find (fun u => bool_decide (user_email u = email)) (users w)), w).

(** [SELECT * FROM links WHERE short_code = ? AND is_active = 1], first row. *)
Definition select_active_link (code : string) : M (option Link) :=
  fun w =>
    (Ok (List.find (fun l => bool_decide (short_code l = code) &&
                             bool_decide (is_active l = 1)) (links w)), w).

(** [SELECT * FROM links WHERE id = ?], first row. *)
Definition select_link_by_id (id : string) : M (option Link) :=
  fun w => (Ok (List.find (fun l => bool_decide (link_id l = id)) (links w)), w).

(** The rows of [clicks] with [link_id = ?]. *)
Definition clicks_of (id : string) (w : World) : list Click :=
  filter (fun c => click_link_id c = id) (clicks w).

Definition click_dates (cs : list Click) : list string :=
  (fun c => DATE (click_created_at c)) <$> cs.

(** [COUNT( * )] and [COUNT(DISTINCT DATE(created_at))]. *)
Definition total_clicks (cs : list Click) : nat := length cs.
Definition active_days (cs : list Click) : nat := length (remove_dups (click_dates cs)).

(** [SELECT DATE(created_at) as date, COUNT( * ) as clicks ...
     GROUP BY DATE(created_at)] *)
Definition group_by_date (cs : list Click) : list (string * nat) :=
  (fun d => (d, length (filter (fun c => DATE (click_created_at c) = d) cs)))
    <$> remove_dups (click_dates cs).

(** [... ORDER BY date DESC LIMIT 7] *)
Definition daily_clicks (cs : list Click) : list (string * nat) :=
  take 7 (merge_sort date_desc (group_by_date cs)).

Definition select_stats (id : string) : M (nat * nat) :=
  fun w => (Ok (total_clicks (clicks_of id w), active_days (clicks_of id w)), w).

Definition select_daily (id : string) : M (list (string * nat)) :=
  fun w => (Ok (daily_clicks (clicks_of id w)), w).

(** [SELECT * FROM links WHERE user_id = ? ORDER BY created_at DESC] *)
Definition link_newer (a b : Link) : Prop :=
  String.le (link_created_at b) (link_created_at a).

Local Instance link_newer_dec : RelDecision link_newer.
Proof. intros a b. unfold link_newer. apply _. Defined.

Definition select_links_of (owner : string) : M (list Link) :=
  fun w =>
    (Ok (merge_sort link_newer (filter (fun l => link_user_id l = owner) (links w))), w).

(** *** Rows as JSON *)

Definition link_fields (l : Link) : list (string * JSON) :=
  [("id", JStr (link_id l));
   ("user_id", JStr (link_user_id l));
   ("original_url", JStr (original_url l));
   ("short_code", JStr (short_code l));
   ("title", nullable (title l));
   ("is_active", JNum (is_active l));
   ("created_at", JStr (link_created_at l))].

Definition stats_json (stats : nat * nat) : JSON :=
  JObj [("total_clicks", JNum (Z.of_nat (fst stats)));
        ("active_days", JNum (Z.of_nat (snd stats)))].

Definition daily_json (row : string * nat) : JSON :=
  JObj [("date", JStr (fst row)); ("clicks", JNum (Z.of_nat (snd row)))].

Definition user_json (id email : string) : JSON :=
  JObj [("id", JStr id); ("email", JStr email)].

(** ** The handlers *)

(** [authHeader && authHeader.split(' ')[1]] *)
Definition token_of (authHeader : option string) : option string :=
  if truthy authHeader then split space (str authHeader) !! 1%nat
  else authHeader.

(** The auth middleware in front of a protected handler [next]. *)
Definition authenticateToken (headers : Headers) (next : Payload -> M Response)
  : M Response :=
  let token := token_of (authorization headers) in
  if js_not token then
    ret (ResJson 401 (error_body "Access token required"))
  else
    fun w =>
      match jwt_verify (str token) (clock w) with
      | None => ret (ResJson 403 (error_body "Invalid or expired token")) w
      | Some user => next user w
      end.

(** [GET /api/health] *)
Definition health : M Response :=
  fun w =>
    (Ok (ResJson 200 (JObj [("status", JStr "ok");
                            ("timestamp", JStr (toISOString (clock w)))])), w).

(** [POST /api/auth/register] *)
Definition register (email password : option string) : M Response :=
  if js_not email || js_not password then
    ret (ResJson 400 (error_body "Email and password are required"))
  else if (String.length (str password) <? 6)%nat then
    ret (ResJson 400 (error_body "Password must be at least 6 characters"))
  else
    try_catch
      (let* id := draw_nanoid 10 in
       let* passwordHash := hash_password (str password) in
       insert_user id (str email) passwordHash;;
       let* token := sign_token (mkPayload id (str email)) in
       ret (ResJson 200 (success_body
              (JObj [("user", user_json id (str email)); ("token", JStr token)]))))
      (fun message =>
         if includes "UNIQUE constraint failed" message then
           ret (ResJson 400 (error_body "Email already registered"))
         else ret (ResJson 500 (error_body message))).

(** [POST /api/auth/login] *)
Definition login (email password : option string) : M Response :=
  if js_not email || js_not password then
    ret (ResJson 400 (error_body "Email and password are required"))
  else
    let* user := select_user_by_email (str email) in
    match user with
    | None => ret (ResJson 401 (error_body "Invalid credentials"))
    | Some user =>
        if negb (bcrypt_compare (str password) (user_password_hash user)) then
          ret (ResJson 401 (error_body "Invalid credentials"))
        else
          let* token := sign_token (mkPayload (user_id user) (user_email user)) in
          ret (ResJson 200 (success_body
                 (JObj [("user", user_json (user_id user) (user_email user));
                        ("token", JStr token)])))
    end.

(** The body of [POST /api/links]; [owner] is [req.user.id] in
    [server.js] and ['demo-user'] in [part_000]. *)
Definition createLink (owner : string) (originalUrl ttl customCode : option string)
  : M Response :=
  if js_not originalUrl then
    ret (ResJson 400 (error_body "originalUrl is required"))
  else
    let* shortCode :=
      (if truthy customCode then ret (str customCode) else draw_nanoid 6) in
    let* id := draw_nanoid 10 in
    try_catch
      (insert_link id owner (str originalUrl) shortCode (js_or_null ttl);;
       ret (ResJson 200 (success_body
              (JObj ([("id", JStr id);
                      ("originalUrl", JStr (str originalUrl));
                      ("shortCode", JStr shortCode);
                      ("shortUrl", JStr ("http://localhost:" +:+ PORT +:+ "/" +:+ shortCode))]
                     ++ optional_field "title" ttl)))))
      (fun message =>
         if includes "UNIQUE constraint failed" message then
           ret (ResJson 400 (error_body "Short code already exists"))
         else ret (ResJson 500 (error_body message))).

(** The body of [GET /api/links]. *)
Definition listLinks (owner : string) : M Response :=
  let* rows := select_links_of owner in
  ret (ResJson 200 (success_body (JArr ((fun l => JObj (link_fields l)) <$> rows)))).

(** [GET /:shortCode] *)
Definition resolveAndRedirect (headers : Headers) (shortCode : string) : M Response :=
  let* link := select_active_link shortCode in
  match link with
  | None => ret (ResJson 404 (error_body "Link not found"))
  | Some link =>
      let* clickId := draw_nanoid 10 in
      insert_click clickId (link_id link)
        (js_or_null (header_user_agent headers))
        (js_or_null (header_referer headers));;
      ret (ResRedirect 302 (original_url link))
  end.

(** [GET /api/links/:id/analytics] *)
Definition getAnalytics (id : string) : M Response :=
  let* link := select_link_by_id id in
  match link with
  | None => ret (ResJson 404 (error_body "Link not found"))
  | Some link =>
      let* stats := select_stats id in
      let* daily := select_daily id in
      ret (ResJson 200 (success_body
             (JObj (link_fields link ++
                    [("stats", stats_json stats);
                     ("daily", JArr (daily_json <$> daily))]))))
  end.

(** Running a handler for one request: an exception that leaves it is
    answered by Express itself. *)
Definition respond (h : M Response) (w : World) : Response * World :=
  match h w with
  | (Ok r, w') => (r, w')
  | (Throw e, w') => (ResUncaught e, w')
  end.

(** The routes of [server.js]. *)
Definition server (req : Request) : World -> Response * World :=
  respond
    match req with
    | GetHealth => health
    | PostRegister email password => register email password
    | PostLogin email password => login email password
    | PostLinks headers originalUrl ttl customCode =>
        authenticateToken headers
          (fun user => createLink (payload_id user) originalUrl ttl customCode)
    | GetLinks headers =>
        authenticateToken headers (fun user => listLinks (payload_id user))
    | GetShortCode headers shortCode => resolveAndRedirect headers shortCode
    | GetAnalytics id => getAnalytics id
    end.

(** The routes of [part_000], which has no authentication. *)
Definition part_000 (req : Request) : World -> Response * World :=
  match req with
  | PostLinks _ originalUrl ttl customCode =>
      respond (createLink "demo-user" originalUrl ttl customCode)
  | GetLinks _ => respond (listLinks "demo-user")
  | GetShortCode headers shortCode => respond (resolveAndRedirect headers shortCode)
  | GetAnalytics id => respond (getAnalytics id)
  | GetHealth => respond health
  | PostRegister _ _ | PostLogin _ _ => fun w => (ResNoRoute, w)
  end.

End Model.

(** ** A concrete platform, for running the handlers on examples *)

Module Demo.

(** The URL-safe alphabet identifiers are drawn from. *)
Definition alphabet : string :=
  "useandom-26T198340PX75pxJACKVERYMINDBUSHWOLF_GQZbfghjklqvwyzrict".

(** The generator state is a counter; each character consumes one tick. *)
Fixpoint draw (size g : nat) : string :=
  match size with
  | O => ""
  | S n => String (default "u"%char (String.get (g mod 64) alphabet)) (draw n (S g))
  end.

(** A salted hash that keeps the password readable, and its comparison. *)
Definition hash (password : string) (g : nat) : string * nat :=
  (String (default "u"%char (String.get (g mod 64) alphabet)) password, S g).

Definition compare (password h : string) : bool :=
  match h with
  | String _ stored => bool_decide (stored = password)
  | EmptyString => false
  end.

(** Tokens: the length of the id in unary, a dot, the id, the email. *)
Fixpoint unary (n : nat) (rest : string) : string :=
  match n with
  | O => String "."%char rest
  | S m => String "1"%char (unary m rest)
  end.

Fixpoint take_chars (n : nat) (s : string) : option (string * string) :=
  match n with
  | O => Some ("", s)
  | S m =>
      match s with
      | EmptyString => None
      | String c rest =>
          match take_chars m rest with
          | Some (a, b) => Some (String c a, b)
          | None => None
          end
      end
  end.

Fixpoint decode_from (n : nat) (s : string) : option Payload :=
  match s with
  | String c rest =>
      if Ascii.eqb c "1"%char then decode_from (S n) rest
      else if Ascii.eqb c "."%char then
        match take_chars n rest with
        | Some (id, email) => Some (mkPayload id email)
        | None => None
        end
      else None
  | EmptyString => None
  end.

Definition sign (p : Payload) : string :=
  unary (String.length (payload_id p)) (payload_id p +:+ payload_email p).

#[export] Instance platform : Platform := {|
  Entropy := nat;
  Time := string * string;
  nanoid := fun size g => (draw size g, (g + size)%nat);
  bcrypt_hash := hash;
  bcrypt_compare := compare;
  jwt_sign := fun p _ => sign p;
  jwt_verify := fun token _ => decode_from 0 token;
  jwt_decode := decode_from 0;
  CURRENT_TIMESTAMP := fst;
  toISOString := snd;
  PORT := "3000";
  foreign_keys := true
|}.

Definition noon : string * string :=
  ("2026-02-06 12:00:00", "2026-02-06T12:00:00.000Z").

Definition no_headers : Headers := mkHeaders None None None.

Definition alice : User :=
  mkUser "u000000001" "a@x.com" "usecret1" "2026-02-05 09:00:00".

Definition example_link : Link :=
  mkLink "L000000001" "u000000001" "https://example.com" "abc123" None 1
         "2026-02-05 09:30:00".

Definition retired_link : Link :=
  mkLink "L000000002" "u000000001" "https://example.org" "old001" (Some "Old") 0
         "2026-02-01 08:00:00".

Definition click_at (id lid created_at : string) : Click :=
  mkClick id lid None None None created_at.

(** Eleven clicks on the example link over nine calendar dates. *)
Definition example_clicks : list Click :=
  [click_at "c01" "L000000001" "2026-01-28 10:00:00";
   click_at "c02" "L000000001" "2026-01-29 10:00:00";
   click_at "c03" "L000000001" "2026-02-03 23:59:59";
   click_at "c04" "L000000001" "2026-01-30 10:00:00";
   click_at "c05" "L000000001" "2026-01-31 10:00:00";
   click_at "c06" "L000000001" "2026-02-01 10:00:00";
   click_at "c07" "L000000001" "2026-02-02 10:00:00";
   click_at "c08" "L000000001" "2026-02-03 00:00:00";
   click_at "c09" "L000000002" "2026-02-03 11:00:00";
   click_at "c10" "L000000001" "2026-02-04 10:00:00";
   click_at "c11" "L000000001" "2026-02-05 10:00:00";
   click_at "c12" "L000000001" "2026-02-05 18:30:00"].

(** The owner every link of [part_000] is filed under. *)
Definition demo_user : User :=
  mkUser "demo-user" "demo@x.com" "sdemo-pass" "2026-02-05 08:00:00".

(** A store with two users, an active and an inactive link, and clicks. *)
Definition world : World :=
  mkWorld [demo_user; alice] [example_link; retired_link] example_clicks 0%nat noon.

(** An empty store. *)
Definition fresh : World := mkWorld [] [] [] 0%nat noon.

(** The same store when the id the generator draws next for a click is
    already the primary key of a row of [clicks]. *)
Definition collision : World :=
  mkWorld [demo_user; alice] [example_link; retired_link]
          [click_at (draw 10 0) "L000000001" "2026-02-05 10:00:00"] 0%nat noon.

End Demo.


(** ** Readings of the specification to compare the code with *)

(** "The substring after the first space" of an [Authorization] header. *)
Fixpoint after_first (sep : ascii) (s : string) : string :=
  match s with
  | EmptyString => EmptyString
  | String c rest => if Ascii.eqb c sep then rest else after_first sep rest
  end.

(** The calendar date of a timestamp ["YYYY-MM-DD HH:MM:SS"]: its date
    component, the first ten characters. *)
Fixpoint first_chars (n : nat) (s : string) : string :=
  match n, s with
  | S m, String c rest => String c (first_chars m rest)
  | _, _ => EmptyString
  end.

Definition calendar_date (created_at : string) : string := first_chars 10 created_at.

(** The calendar dates of the clicks on a link, one entry per click, in the
    order the clicks were stored. *)
Fixpoint dates_clicked (id : string) (cs : list Click) : list string :=
  match cs with
  | [] => []
  | c :: rest =>
      if decide (click_link_id c = id)
      then calendar_date (click_created_at c) :: dates_clicked id rest
      else dates_clicked id rest
  end.

(** How many of those clicks fell on a given date. *)
Fixpoint clicks_on (d : string) (dates : list string) : nat :=
  match dates with
  | [] => O
  | x :: rest => if decide (x = d) then S (clicks_on d rest) else clicks_on d rest
  end.

(** ** Properties of the handlers *)

Section Properties.

Context `{Platform}.

(** *** The database constraints are an invariant *)

(** Primary keys and [UNIQUE] columns hold no duplicates. *)
Definition store_ok (w : World) : Prop :=
  NoDup (user_id <$> users w) /\ NoDup (user_email <$> users w) /\
  NoDup (link_id <$> links w) /\ NoDup (short_code <$> links w) /\
  NoDup (click_id <$> clicks w).

Lemma NoDup_snoc_fresh {A} (l : list A) (x : A) :
  NoDup l -> x ∉ l -> NoDup (l ++ [x]).
Proof.
  intros Hl Hx. apply NoDup_app. split; [done|]. split.
  - intros y Hy Hy'. apply list_elem_of_singleton in Hy'. by subst.
  - apply NoDup_singleton.
Qed.

Lemma insert_user_inv id email hash w o w' :
  insert_user id email hash w = (o, w') ->
  (o = Ok tt /\ (id ∉ user_id <$> users w) /\ (email ∉ user_email <$> users w) /\
   w' = mkWorld (users w ++ [mkUser id email hash (CURRENT_TIMESTAMP (clock w))])
                (links w) (clicks w) (rng w) (clock w)) \/
  (w' = w /\ exists column, o = Throw ("UNIQUE constraint failed: users." +:+ column)).
Proof.
  unfold insert_user. intros Hrun.
  repeat case_bool_decide; simplify_eq.
  - right. split; [done|]. by exists "id".
  - right. split; [done|]. by exists "email".
  - by left.
Qed.

Lemma insert_link_inv id owner url code ttl w o w' :
  insert_link id owner url code ttl w = (o, w') ->
  (o = Ok tt /\ (id ∉ link_id <$> links w) /\ (code ∉ short_code <$> links w) /\
   w' = mkWorld (users w)
          (links w ++ [mkLink id owner url code ttl 1 (CURRENT_TIMESTAMP (clock w))])
          (clicks w) (rng w) (clock w)) \/
  (w' = w /\ (code ∉ short_code <$> links w) /\ o = Throw "FOREIGN KEY constraint failed") \/
  (w' = w /\ exists column, o = Throw ("UNIQUE constraint failed: links." +:+ column)).
Proof.
  unfold insert_link. intros Hrun.
  repeat case_bool_decide; try destruct foreign_keys; simpl in Hrun; simplify_eq;
    first [ by left
          | by (right; left)
          | right; right; split; [done | eexists; reflexivity] ].
Qed.

Lemma insert_click_inv id lid ua ref w o w' :
  insert_click id lid ua ref w = (o, w') ->
  (o = Ok tt /\ (id ∉ click_id <$> clicks w) /\
   w' = mkWorld (users w) (links w)
          (clicks w ++ [mkClick id lid ua ref None (CURRENT_TIMESTAMP (clock w))])
          (rng w) (clock w)) \/
  (w' = w /\ exists message, o = Throw message).
Proof.
  unfold insert_click. intros Hrun.
  repeat case_bool_decide; simplify_eq; eauto.
  - destruct foreign_keys; simpl in Hrun; simplify_eq; eauto.
  - destruct foreign_keys; simpl in Hrun; simplify_eq; eauto.
Qed.

(** Unfolding a handler down to the store. *)
Ltac run :=
  unfold server, part_000, respond, health, register, login, createLink, listLinks,
    resolveAndRedirect, getAnalytics, authenticateToken,
    select_user_by_email, select_active_link, select_link_by_id, select_stats,
    select_daily, select_links_of, draw_nanoid, hash_password, sign_token,
    insert_user, insert_link, insert_click, try_catch, bind, ret in *.

(** Following every branch of an unfolded handler. *)
Ltac paths :=
  repeat (case_match; simplify_eq; simpl in *; try done);
  try (simplify_eq; simpl in *; done).

(** *** Redirects *)

Lemma find_active_none code (ls : list Link) :
  (forall l, l ∈ ls -> short_code l = code -> is_active l <> 1) ->
  List.find (fun l => bool_decide (short_code l = code) &&
                      bool_decide (is_active l = 1)) ls = None.
Proof.
  induction ls as [|l ls IH]; intros Hall; [done|]. simpl.
  destruct (bool_decide_reflect (short_code l = code)) as [Hc|Hc]; simpl.
  - rewrite bool_decide_eq_false_2.
    + apply IH. intros l' Hin. apply Hall. by right.
    + apply Hall; [by left | done].
  - apply IH. intros l' Hin. apply Hall. by right.
Qed.

Lemma resolveAndRedirect_not_found headers code w :
  (forall l, l ∈ links w -> short_code l = code -> is_active l <> 1) ->
  resolveAndRedirect headers code w =
    (Ok (ResJson 404 (error_body "Link not found")), w).
Proof.
  intros Hall. run. by rewrite (find_active_none code (links w) Hall).
Qed.

(** Whenever the code resolves to an active link and the drawn click id is
    taken, the insert throws past [res.redirect]: nothing is redirected and
    nothing is stored. *)
Lemma failed_click_insert_is_uncaught headers code link w :
  List.find (fun l => bool_decide (short_code l = code) && bool_decide (is_active l = 1))
            (links w) = Some link ->
  fst (nanoid 10 (rng w)) ∈ click_id <$> clicks w ->
  exists w',
    server (GetShortCode headers code) w =
      (ResUncaught "UNIQUE constraint failed: clicks.id", w') /\
    part_000 (GetShortCode headers code) w =
      (ResUncaught "UNIQUE constraint failed: clicks.id", w') /\
    clicks w' = clicks w.
Proof.
  intros Hfind Htaken. run. rewrite Hfind.
  destruct (nanoid 10 (rng w)) as [id g]. simpl in *.
  rewrite (bool_decide_eq_true_2 _ Htaken). eauto.
Qed.

(** C6. A [GET /:shortCode] whose code matches no link, or only links whose
    [is_active] flag is 0, answers 404 "Link not found" and leaves the
    store, the [clicks] table in particular, as it was; in [server.js] and
    in [part_000] alike. *)
Theorem C6_unknown_or_inactive_code_is_404 headers code w :
  (forall l, l ∈ links w -> short_code l = code -> is_active l = 0) ->
  server (GetShortCode headers code) w =
    (ResJson 404 (error_body "Link not found"), w) /\
  part_000 (GetShortCode headers code) w =
    (ResJson 404 (error_body "Link not found"), w) /\
  clicks (snd (server (GetShortCode headers code) w)) = clicks w /\
  clicks (snd (part_000 (GetShortCode headers code) w)) = clicks w.
Proof.
  intros Hall.
  assert (Hrun : resolveAndRedirect headers code w =
                 (Ok (ResJson 404 (error_body "Link not found")), w)).
  { apply resolveAndRedirect_not_found. intros l Hin Hc Ha.
    specialize (Hall l Hin Hc). lia. }
  unfold server, part_000, respond. rewrite Hrun. done.
Qed.

(** *** The response envelope *)

(** C3, amended. On every route but [GET /api/health], a response with
    status 200 and a JSON body has the body [{success: true, data: ...}];
    [GET /api/health] answers 200 with [{status: "ok", timestamp: ...}],
    which is not wrapped.  In [server.js] and in [part_000] alike. *)
Theorem C3_success_envelope_except_health req w :
  (req <> GetHealth ->
   forall body w',
     server req w = (ResJson 200 body, w') \/ part_000 req w = (ResJson 200 body, w') ->
     is_success_envelope body = true) /\
  server GetHealth w =
    (ResJson 200 (JObj [("status", JStr "ok");
                        ("timestamp", JStr (toISOString (clock w)))]), w) /\
  part_000 GetHealth w = server GetHealth w.
Proof.
  split; [|done].
  intros Hreq body w' [Hrun|Hrun]; destruct req; try done; run; paths.
Qed.

(** *** The constraints survive every request *)

Lemma run_preserves_store_ok (h : M Response) :
  (forall w o w', h w = (o, w') -> store_ok w -> store_ok w') ->
  forall w, store_ok w -> store_ok (snd (respond h w)).
Proof.
  intros Hh w Hok. unfold respond.
  destruct (h w) as [[r|e] w'] eqn:Hrun; simpl; by eapply Hh.
Qed.

Lemma register_preserves_store_ok email password w o w' :
  register email password w = (o, w') -> store_ok w -> store_ok w'.
Proof.
  unfold register, try_catch, bind, ret, draw_nanoid, hash_password, sign_token.
  intros Hrun Hok.
  destruct (js_not email || js_not password); [by simplify_eq|].
  destruct (String.length (str password) <? 6)%nat; [by simplify_eq|].
  destruct (nanoid 10 (rng w)) as [id g1]. simpl in Hrun.
  destruct (bcrypt_hash (str password) g1) as [h g2]. simpl in Hrun.
  destruct (insert_user id (str email) h _) as [o1 w1] eqn:Hins.
  apply insert_user_inv in Hins as [(-> & Hid & Hemail & ->) | (-> & column & ->)].
  - simpl in *. simplify_eq. destruct Hok as (Hu & He & Hrest).
    split; [|split; [|exact Hrest]]; simpl; rewrite fmap_app; by apply NoDup_snoc_fresh.
  - simpl in Hrun. by simplify_eq.
Qed.

Lemma createLink_preserves_store_ok owner originalUrl ttl customCode w o w' :
  createLink owner originalUrl ttl customCode w = (o, w') -> store_ok w -> store_ok w'.
Proof.
  unfold createLink, try_catch, bind, ret, draw_nanoid.
  intros Hrun Hok.
  destruct (js_not originalUrl); [by simplify_eq|].
  destruct (truthy customCode); simpl in Hrun;
    [| destruct (nanoid 6 (rng w)) as [code g1]; simpl in Hrun ].
  all: match type of Hrun with
       | context [nanoid 10 ?g] => destruct (nanoid 10 g) as [id g2]
       end; simpl in Hrun.
  all: match type of Hrun with
       | context [insert_link ?a ?b ?c ?d ?e ?f] =>
           destruct (insert_link a b c d e f) as [o1 w1] eqn:Hins
       end.
  all: apply insert_link_inv in Hins
         as [(-> & Hid & Hcode & ->) | [(-> & _ & ->) | (-> & column & ->)]];
       simpl in *; simplify_eq; try done.
  all: destruct Hok as (Hu & He & Hl & Hc & Hk);
       split; [done|]; split; [done|];
       split; [|split; [|done]]; simpl; rewrite fmap_app; by apply NoDup_snoc_fresh.
Qed.

Lemma resolveAndRedirect_preserves_store_ok headers code w o w' :
  resolveAndRedirect headers code w = (o, w') -> store_ok w -> store_ok w'.
Proof.
  unfold resolveAndRedirect, select_active_link, bind, ret, draw_nanoid.
  intros Hrun Hok. destruct (List.find _ (links w)) as [link|]; [|by simplify_eq].
  destruct (nanoid 10 (rng w)) as [id g]. simpl in Hrun.
  destruct (insert_click id (link_id link) _ _ _) as [o1 w1] eqn:Hins.
  apply insert_click_inv in Hins as [(-> & Hid & ->) | (-> & message & ->)].
  - simpl in *. simplify_eq. destruct Hok as (Hu & He & Hl & Hc & Hk).
    repeat (split; [done|]). simpl. rewrite fmap_app. by apply NoDup_snoc_fresh.
  - simpl in Hrun. by simplify_eq.
Qed.

Lemma authenticateToken_preserves_store_ok headers next w o w' :
  (forall user w o w', next user w = (o, w') -> store_ok w -> store_ok w') ->
  authenticateToken headers next w = (o, w') -> store_ok w -> store_ok w'.
Proof.
  unfold authenticateToken, ret. intros Hnext Hrun Hok.
  destruct (js_not _); [by simplify_eq|].
  destruct (jwt_verify _ _) as [user|]; [by eapply Hnext | by simplify_eq].
Qed.

Lemma reads_preserve_store_ok (h : M Response) w o w' :
  h = health \/ (exists e p, h = login e p) \/ (exists owner, h = listLinks owner) \/
  (exists id, h = getAnalytics id) ->
  h w = (o, w') -> store_ok w -> store_ok w'.
Proof.
  intros [-> | [(e & p & ->) | [(owner & ->) | (id & ->)]]] Hrun Hok; run; paths.
Qed.

(** Every request of either revision keeps primary keys and [UNIQUE]
    columns free of duplicates. *)
Lemma requests_preserve_store_ok req w :
  store_ok w -> store_ok (snd (server req w)) /\ store_ok (snd (part_000 req w)).
Proof.
  intros Hok. split; destruct req; unfold server, part_000; simpl; try done;
    apply run_preserves_store_ok; try done; intros w0 o w0';
    try (apply authenticateToken_preserves_store_ok; intros user w1 o1 w1');
    first [ apply register_preserves_store_ok
          | apply createLink_preserves_store_ok
          | apply resolveAndRedirect_preserves_store_ok
          | apply reads_preserve_store_ok; eauto 10 ].
Qed.

(** *** Registration and login *)

(** What [register] does once both fields are present and the password is
    long enough: the [try] block and its [catch]. *)
Definition register_attempt (e p : string) (w : World) : Outcome Response * World :=
  let (id, g1) := nanoid 10 (rng w) in
  let (h, g2) := bcrypt_hash p g1 in
  let w2 := mkWorld (users w) (links w) (clicks w) g2 (clock w) in
  if bool_decide (id ∈ user_id <$> users w) || bool_decide (e ∈ user_email <$> users w) then
    (Ok (ResJson 400 (error_body "Email already registered")), w2)
  else
    (Ok (ResJson 200 (success_body
           (JObj [("user", user_json id e);
                  ("token", JStr (jwt_sign (mkPayload id e) (clock w)))]))),
     mkWorld (users w ++ [mkUser id e h (CURRENT_TIMESTAMP (clock w))])
             (links w) (clicks w) g2 (clock w)).

Lemma register_valid e p w :
  e <> "" -> (6 <= String.length p)%nat ->
  register (Some e) (Some p) w = register_attempt e p w.
Proof.
  intros He Hp. unfold register, register_attempt, js_not. simpl.
  rewrite (bool_decide_eq_false_2 _ He). simpl.
  assert (Hne : p <> "") by (intros ->; simpl in Hp; lia).
  rewrite (bool_decide_eq_false_2 _ Hne). simpl.
  destruct (Nat.ltb_spec (String.length p) 6) as [Hlt|_]; [lia|].
  run. simpl.
  destruct (nanoid 10 (rng w)) as [id g1]. simpl.
  destruct (bcrypt_hash p g1) as [h g2]. simpl.
  repeat case_bool_decide; simpl; done.
Qed.

Lemma register_invalid email password w :
  email = None \/ password = None \/
  (exists p, password = Some p /\ (String.length p < 6)%nat) ->
  exists message,
    register email password w = (Ok (ResJson 400 (error_body message)), w).
Proof.
  unfold register, ret. intros [-> | [-> | (p & -> & Hp)]].
  - eauto.
  - rewrite orb_true_r. eauto.
  - destruct (js_not email || js_not (Some p)); [eauto|].
    simpl. destruct (Nat.ltb_spec (String.length p) 6) as [_|Hge]; [eauto|lia].
Qed.

(** C5. [register] answers 400 and leaves the store as it was whenever the
    email or the password is missing or the password is shorter than 6; and
    whenever the email is the email of a row of [users] it answers 400 and
    the [users] table is unchanged, the message being "Email already
    registered" when the fields pass validation. *)
Theorem C5_register_rejects_invalid_and_duplicate email password w :
  (email = None \/ password = None \/
   (exists p, password = Some p /\ (String.length p < 6)%nat) ->
   exists message,
     server (PostRegister email password) w = (ResJson 400 (error_body message), w)) /\
  (forall e, email = Some e -> e ∈ user_email <$> users w ->
   exists message w',
     server (PostRegister email password) w = (ResJson 400 (error_body message), w') /\
     users w' = users w /\
     (e <> "" -> (exists p, password = Some p /\ (6 <= String.length p)%nat) ->
      message = "Email already registered")).
Proof.
  split.
  - intros Hbad. destruct (register_invalid email password w Hbad) as [message Hrun].
    exists message. unfold server, respond. by rewrite Hrun.
  - intros e -> Hdup. unfold server, respond.
    destruct (decide (e = "")) as [->|He].
    { exists "Email and password are required", w. by unfold register. }
    destruct password as [p|].
    2:{ exists "Email and password are required", w.
        unfold register, js_not, ret. simpl. rewrite orb_true_r.
        split; [done|]. split; [done|]. by intros _ (p' & [=] & _). }
    destruct (Nat.lt_ge_cases (String.length p) 6) as [Hlt|Hge].
    { destruct (register_invalid (Some e) (Some p) w) as [message Hrun]; [eauto|].
      exists message, w. rewrite Hrun. split; [done|]. split; [done|].
      intros _ (p' & [= <-] & Hp'). lia. }
    rewrite (register_valid e p w He Hge). unfold register_attempt.
    destruct (nanoid 10 (rng w)) as [id g1]. destruct (bcrypt_hash p g1) as [h g2].
    rewrite (bool_decide_eq_true_2 _ Hdup), orb_true_r.
    eexists _, _. split; [reflexivity|]. done.
Qed.

Lemma find_email_fresh e (us later : list User) (u : User) :
  (e ∉ user_email <$> us) -> user_email u = e ->
  List.find (fun u' => bool_decide (user_email u' = e)) (us ++ u :: later) = Some u.
Proof.
  intros Hfresh Hu. induction us as [|u0 us IH]; simpl.
  - by rewrite (bool_decide_eq_true_2 _ Hu).
  - rewrite fmap_cons, not_elem_of_cons in Hfresh. destruct Hfresh as [Hne Hfresh].
    rewrite bool_decide_eq_false_2; [by apply IH | congruence].
Qed.

(** C7. With a [bcrypt.compare] that accepts the hash of the password and a
    token decoding that inverts signing: a registration with an unused
    email and a password of at least 6 characters succeeds whenever the
    drawn user id is not taken, and after every such successful
    registration the token decodes to [{id, email}] and a login with the
    same email and password, on any later store whose [users] table
    extends the one the registration left, succeeds with a token decoding
    to the same [{id, email}]. *)
Theorem C7_register_then_login e p w :
  bcrypt_sound -> jwt_decodes ->
  e <> "" -> (6 <= String.length p)%nat ->
  (e ∉ user_email <$> users w) ->
  ((fst (nanoid 10 (rng w)) ∉ user_id <$> users w) ->
   exists body w1, server (PostRegister (Some e) (Some p)) w = (ResJson 200 body, w1)) /\
  (forall body w1,
     server (PostRegister (Some e) (Some p)) w = (ResJson 200 body, w1) ->
     exists id token,
       body = success_body (JObj [("user", user_json id e); ("token", JStr token)]) /\
       jwt_decode token = Some (mkPayload id e) /\
       forall w2 later, users w2 = users w1 ++ later ->
         exists token',
           server (PostLogin (Some e) (Some p)) w2 =
             (ResJson 200 (success_body
                (JObj [("user", user_json id e); ("token", JStr token')])), w2) /\
           jwt_decode token' = Some (mkPayload id e) /\
           jwt_decode token' = jwt_decode token).
Proof.
  intros Hbcrypt Hjwt He Hp Hfresh.
  assert (Hne : p <> "") by (intros ->; simpl in Hp; lia).
  unfold server, respond. rewrite (register_valid e p w He Hp). unfold register_attempt.
  pose proof (Hbcrypt p (snd (nanoid 10 (rng w)))) as Hcmp.
  destruct (nanoid 10 (rng w)) as [id g1]. simpl in *.
  destruct (bcrypt_hash p g1) as [h g2]. simpl in Hcmp.
  rewrite (bool_decide_eq_false_2 _ Hfresh), orb_false_r.
  split.
  - intros Hid. rewrite (bool_decide_eq_false_2 _ Hid). eauto.
  - intros body w1 Hrun. case_bool_decide; simplify_eq.
    exists id, (jwt_sign (mkPayload id e) (clock w)).
    split; [done|]. split; [apply Hjwt|].
    intros w2 later Hlater. simpl in Hlater.
    exists (jwt_sign (mkPayload id e) (clock w2)).
    split; [|by rewrite !Hjwt].
    unfold login, js_not. simpl.
    rewrite (bool_decide_eq_false_2 _ He), (bool_decide_eq_false_2 _ Hne). simpl.
    run. simpl. rewrite Hlater, <- app_assoc. simpl.
    rewrite (find_email_fresh e (users w) later
               (mkUser id e h (CURRENT_TIMESTAMP (clock w))) Hfresh eq_refl). simpl.
    by rewrite Hcmp.
Qed.

(** *** The auth middleware *)

Lemma split_no_sep sep s : occurs sep s = false -> split sep s = [s].
Proof.
  induction s as [|c s IH]; simpl; [done|].
  intros Hocc. apply orb_false_iff in Hocc as [Hc Hs].
  rewrite Hc. by rewrite (IH Hs).
Qed.

Lemma split_app sep a b :
  occurs sep a = false -> split sep (a +:+ String sep b) = a :: split sep b.
Proof.
  induction a as [|c a IH]; simpl.
  - intros _. by rewrite Ascii.eqb_refl.
  - intros Hocc. apply orb_false_iff in Hocc as [Hc Ha].
    rewrite Hc. by rewrite (IH Ha).
Qed.

Lemma truthy_app_sep a sep b : truthy (Some (a +:+ String sep b)) = true.
Proof. by destruct a. Qed.

Lemma app_space s : " " +:+ s = String space s.
Proof. reflexivity. Qed.

Lemma token_of_second_word scheme tok :
  occurs space scheme = false -> occurs space tok = false ->
  token_of (Some (scheme +:+ " " +:+ tok)) = Some tok.
Proof.
  intros Hs Ht. unfold token_of. rewrite !app_space, truthy_app_sep. simpl.
  rewrite (split_app _ _ _ Hs). by rewrite (split_no_sep _ _ Ht).
Qed.

Lemma token_of_second_of_many scheme tok rest :
  occurs space scheme = false -> occurs space tok = false ->
  token_of (Some (scheme +:+ " " +:+ tok +:+ " " +:+ rest)) = Some tok.
Proof.
  intros Hs Ht. unfold token_of. rewrite !app_space, truthy_app_sep. simpl.
  rewrite (split_app _ _ _ Hs). by rewrite (split_app _ _ _ Ht).
Qed.

Lemma token_of_one_word h : occurs space h = false -> js_not (token_of (Some h)) = true.
Proof.
  intros Hh. unfold token_of, js_not. destruct (truthy (Some h)) eqn:Ht.
  - simpl. by rewrite (split_no_sep _ _ Hh).
  - by rewrite Ht.
Qed.

(** What the middleware does once the token is known. *)
Definition authenticate_with (token : string) (next : Payload -> M Response) : M Response :=
  fun w =>
    if bool_decide (token = "") then
      (Ok (ResJson 401 (error_body "Access token required")), w)
    else
      match jwt_verify token (clock w) with
      | None => (Ok (ResJson 403 (error_body "Invalid or expired token")), w)
      | Some user => next user w
      end.

Lemma authenticateToken_with headers token next w :
  token_of (authorization headers) = Some token ->
  authenticateToken headers next w = authenticate_with token next w.
Proof.
  intros Htok. unfold authenticateToken, authenticate_with, js_not, ret.
  rewrite Htok. simpl. by case_bool_decide.
Qed.

(** C9, amended. The middleware never looks at the scheme word.  When the
    [Authorization] header is [scheme], a space, [tok] (neither holding a
    space), possibly followed by a space and anything else, the token is
    [tok], the text between the first and the second space, whatever
    [scheme] is: the request is rejected with 401 when [tok] is empty,
    with 403 when [jwt.verify] refuses [tok], and goes on to the handler
    as the user of [tok] otherwise.  A header [h] with no space is
    rejected with 401 without [jwt.verify] being consulted, so also when
    [h] is a valid token. *)
Theorem C9_scheme_word_is_never_checked scheme tok h agent ref next w :
  occurs space scheme = false ->
  occurs space tok = false ->
  occurs space h = false ->
  token_of (Some (scheme +:+ " " +:+ tok)) = Some tok /\
  (forall rest, token_of (Some (scheme +:+ " " +:+ tok +:+ " " +:+ rest)) = Some tok) /\
  authenticateToken (mkHeaders (Some (scheme +:+ " " +:+ tok)) agent ref) next w =
    authenticate_with tok next w /\
  (forall rest,
     authenticateToken
       (mkHeaders (Some (scheme +:+ " " +:+ tok +:+ " " +:+ rest)) agent ref) next w =
     authenticate_with tok next w) /\
  authenticateToken (mkHeaders (Some h) agent ref) next w =
    (Ok (ResJson 401 (error_body "Access token required")), w).
Proof.
  intros Hs Ht Hh.
  split; [by apply token_of_second_word|].
  split; [intros rest; by apply token_of_second_of_many|].
  split; [apply authenticateToken_with; by apply token_of_second_word|].
  split; [intros rest; apply authenticateToken_with; by apply token_of_second_of_many|].
  unfold authenticateToken. simpl. by rewrite (token_of_one_word h Hh).
Qed.

(** *** Creating links *)

(** The short code [customCode || nanoid(6)] evaluates to. *)
Definition chosen_code (customCode : option string) (w : World) : string :=
  if truthy customCode then str customCode else fst (nanoid 6 (rng w)).

(** The generator after [customCode || nanoid(6)]. *)
Definition chosen_rng (customCode : option string) (w : World) : Entropy :=
  if truthy customCode then rng w else snd (nanoid 6 (rng w)).

(** What [createLink] does once [originalUrl] is present: the two draws,
    the [try] block and its [catch]. *)
Definition createLink_attempt (owner url : string) (ttl customCode : option string)
    (w : World) : Outcome Response * World :=
  let code := chosen_code customCode w in
  let (id, g2) := nanoid 10 (chosen_rng customCode w) in
  let w2 := mkWorld (users w) (links w) (clicks w) g2 (clock w) in
  if bool_decide (id ∈ link_id <$> links w) || bool_decide (code ∈ short_code <$> links w) then
    (Ok (ResJson 400 (error_body "Short code already exists")), w2)
  else if foreign_keys && negb (bool_decide (owner ∈ user_id <$> users w)) then
    (Ok (ResJson 500 (error_body "FOREIGN KEY constraint failed")), w2)
  else
    (Ok (ResJson 200 (success_body
           (JObj ([("id", JStr id);
                   ("originalUrl", JStr url);
                   ("shortCode", JStr code);
                   ("shortUrl", JStr ("http://localhost:" +:+ PORT +:+ "/" +:+ code))]
                  ++ optional_field "title" ttl)))),
     mkWorld (users w)
             (links w ++ [mkLink id owner url code (js_or_null ttl) 1
                                 (CURRENT_TIMESTAMP (clock w))])
             (clicks w) g2 (clock w)).

Lemma createLink_present owner url ttl customCode w :
  url <> "" ->
  createLink owner (Some url) ttl customCode w =
  createLink_attempt owner url ttl customCode w.
Proof.
  intros Hurl. unfold createLink, createLink_attempt, chosen_code, chosen_rng, js_not.
  simpl. rewrite (bool_decide_eq_false_2 _ Hurl). simpl.
  run. simpl.
  destruct (truthy customCode); simpl.
  - destruct (nanoid 10 (rng w)) as [id g2]. simpl.
    repeat case_bool_decide; simpl; try done; destruct foreign_keys; simpl; done.
  - destruct (nanoid 6 (rng w)) as [code g1]. simpl.
    destruct (nanoid 10 g1) as [id g2]. simpl.
    repeat case_bool_decide; simpl; try done; destruct foreign_keys; simpl; done.
Qed.

Lemma createLink_absent owner originalUrl ttl customCode w :
  js_not originalUrl = true ->
  createLink owner originalUrl ttl customCode w =
  (Ok (ResJson 400 (error_body "originalUrl is required")), w).
Proof. intros Habs. unfold createLink. by rewrite Habs. Qed.

Lemma js_not_false_inv v : js_not v = false -> exists s, v = Some s /\ s <> "".
Proof.
  unfold js_not. destruct v as [s|]; simpl; [|done].
  intros Hs. exists s. split; [done|]. intros ->. done.
Qed.

(** A successful [createLink] appended exactly one row, and tells which. *)
Lemma createLink_success_inv owner originalUrl ttl customCode w body w' :
  createLink owner originalUrl ttl customCode w = (Ok (ResJson 200 body), w') ->
  exists url id,
    originalUrl = Some url /\ url <> "" /\
    links w' = links w ++ [mkLink id owner url (chosen_code customCode w) (js_or_null ttl) 1
                                  (CURRENT_TIMESTAMP (clock w))] /\
    body = success_body
             (JObj ([("id", JStr id);
                     ("originalUrl", JStr url);
                     ("shortCode", JStr (chosen_code customCode w));
                     ("shortUrl", JStr ("http://localhost:" +:+ PORT +:+ "/" +:+
                                        chosen_code customCode w))]
                    ++ optional_field "title" ttl)).
Proof.
  intros Hrun. destruct (js_not originalUrl) eqn:Hurl.
  - rewrite (createLink_absent _ _ _ _ _ Hurl) in Hrun. simplify_eq.
  - apply js_not_false_inv in Hurl as (url & -> & Hurl).
    rewrite (createLink_present _ _ _ _ _ Hurl) in Hrun.
    unfold createLink_attempt in Hrun.
    destruct (nanoid 10 (chosen_rng customCode w)) as [id g2].
    repeat case_match; simplify_eq. by exists url, id.
Qed.

(** Both revisions run [createLink]: [part_000] for the fixed owner, and
    [server.js] for the user of the verified token. *)
Lemma routes_run_createLink headers originalUrl ttl customCode token user w :
  token_of (authorization headers) = Some token -> token <> "" ->
  jwt_verify token (clock w) = Some user ->
  server (PostLinks headers originalUrl ttl customCode) w =
    respond (createLink (payload_id user) originalUrl ttl customCode) w /\
  part_000 (PostLinks headers originalUrl ttl customCode) w =
    respond (createLink "demo-user" originalUrl ttl customCode) w.
Proof.
  intros Htok Hne Hverify. split; [|done].
  unfold server, respond. rewrite (authenticateToken_with _ _ _ _ Htok).
  unfold authenticate_with. rewrite (bool_decide_eq_false_2 _ Hne). by rewrite Hverify.
Qed.

(** C4, amended. For a [createLink] call whose [originalUrl] is present:
    the short code is the caller's [customCode] when one is supplied and is
    not empty, and otherwise (absent or empty) a 6-character identifier
    drawn from the generator; when that code is the code of a row of
    [links] the call answers 400 and [links] is unchanged; and when the
    call succeeds, [links] has one more row, holding that code, and the
    response carries the id, the URL, the code, the short URL
    ["http://localhost:PORT/" + code] and the title.  A call with a
    non-empty URL does succeed when neither the drawn id nor the code is
    taken and the owner exists. *)
Theorem C4_createLink_short_code owner url ttl customCode w :
  nanoid_sized ->
  (forall c, customCode = Some c -> c <> "" -> chosen_code customCode w = c) /\
  (customCode = None \/ customCode = Some "" ->
   chosen_code customCode w = fst (nanoid 6 (rng w)) /\
   String.length (chosen_code customCode w) = 6%nat) /\
  (chosen_code customCode w ∈ short_code <$> links w ->
   exists message w',
     createLink owner (Some url) ttl customCode w =
       (Ok (ResJson 400 (error_body message)), w') /\
     links w' = links w /\
     (url <> "" -> message = "Short code already exists")) /\
  (forall body w',
     createLink owner (Some url) ttl customCode w = (Ok (ResJson 200 body), w') ->
     exists id,
       links w' = links w ++ [mkLink id owner url (chosen_code customCode w) (js_or_null ttl)
                                     1 (CURRENT_TIMESTAMP (clock w))] /\
       body = success_body
                (JObj ([("id", JStr id);
                        ("originalUrl", JStr url);
                        ("shortCode", JStr (chosen_code customCode w));
                        ("shortUrl", JStr ("http://localhost:" +:+ PORT +:+ "/" +:+
                                           chosen_code customCode w))]
                       ++ optional_field "title" ttl))) /\
  (url <> "" ->
   (chosen_code customCode w ∉ short_code <$> links w) ->
   (fst (nanoid 10 (chosen_rng customCode w)) ∉ link_id <$> links w) ->
   (owner ∈ user_id <$> users w) ->
   exists body w',
     createLink owner (Some url) ttl customCode w = (Ok (ResJson 200 body), w')).
Proof.
  intros Hsized. split; [|split; [|split; [|split]]].
  - intros c -> Hc. unfold chosen_code. simpl. by rewrite (bool_decide_eq_false_2 _ Hc).
  - intros Hcc.
    assert (Hcode : chosen_code customCode w = fst (nanoid 6 (rng w)))
      by (by destruct Hcc as [-> | ->]).
    split; [done|]. rewrite Hcode. apply Hsized.
  - intros Htaken. destruct (decide (url = "")) as [->|Hurl].
    + exists "originalUrl is required", w. by rewrite createLink_absent.
    + rewrite (createLink_present _ _ _ _ _ Hurl). unfold createLink_attempt.
      destruct (nanoid 10 (chosen_rng customCode w)) as [id g2].
      rewrite (bool_decide_eq_true_2 _ Htaken), orb_true_r.
      eexists _, _. split; [reflexivity|]. done.
  - intros body w' Hrun.
    destruct (createLink_success_inv _ _ _ _ _ _ _ Hrun) as (url' & id & [= <-] & _ & Hrows & Hbody).
    by exists id.
  - intros Hurl Hcode Hid Howner.
    rewrite (createLink_present _ _ _ _ _ Hurl). unfold createLink_attempt.
    destruct (nanoid 10 (chosen_rng customCode w)) as [id g2]. simpl in Hid.
    rewrite (bool_decide_eq_false_2 _ Hid), (bool_decide_eq_false_2 _ Hcode).
    rewrite (bool_decide_eq_true_2 _ Howner). simpl. rewrite andb_false_r. eauto.
Qed.

(** C10. A [customCode] of [""] is treated as an absent one: the two calls
    run alike, and when the call succeeds the row it stores holds the
    identifier drawn by [nanoid(6)], of length 6, not the empty string. *)
Theorem C10_empty_customCode_is_absent owner originalUrl ttl w :
  nanoid_sized ->
  createLink owner originalUrl ttl (Some "") w = createLink owner originalUrl ttl None w /\
  (forall body w',
     createLink owner originalUrl ttl (Some "") w = (Ok (ResJson 200 body), w') ->
     exists link,
       links w' = links w ++ [link] /\
       short_code link = fst (nanoid 6 (rng w)) /\
       String.length (short_code link) = 6%nat /\
       short_code link <> "").
Proof.
  intros Hsized. split; [done|].
  intros body w' Hrun.
  destruct (createLink_success_inv _ _ _ _ _ _ _ Hrun) as (url & id & -> & _ & Hrows & _).
  eexists. split; [exact Hrows|]. simpl. unfold chosen_code. simpl.
  pose proof (Hsized 6%nat (rng w)) as Hlen.
  split; [done|]. split; [done|].
  intros Hempty. rewrite Hempty in Hlen. simpl in Hlen. lia.
Qed.

(** *** Analytics *)

Lemma find_id_none id (ls : list Link) :
  (id ∉ link_id <$> ls) ->
  List.find (fun l => bool_decide (link_id l = id)) ls = None.
Proof.
  induction ls as [|l ls IH]; [done|]. rewrite fmap_cons, not_elem_of_cons.
  intros [Hne Hrest]. simpl. rewrite bool_decide_eq_false_2; [by apply IH | congruence].
Qed.



Lemma getAnalytics_found id link w :
  List.find (fun l => bool_decide (link_id l = id)) (links w) = Some link ->
  getAnalytics id w =
    (Ok (ResJson 200 (success_body
           (JObj (link_fields link ++
                  [("stats", stats_json (total_clicks (clicks_of id w),
                                         active_days (clicks_of id w)));
                   ("daily", JArr (daily_json <$> daily_clicks (clicks_of id w)))])))),
     w).
Proof. intros Hfind. run. by rewrite Hfind. Qed.

Lemma getAnalytics_missing id w :
  List.find (fun l => bool_decide (link_id l = id)) (links w) = None ->
  getAnalytics id w = (Ok (ResJson 404 (error_body "Link not found")), w).
Proof. intros Hfind. run. by rewrite Hfind. Qed.

(** [COUNT(DISTINCT ...)] is the size of the set of dates. *)
Lemma active_days_size cs :
  active_days cs = size (list_to_set (click_dates cs) : gset string).
Proof.
  unfold active_days.
  rewrite <- (size_list_to_set (C:=gset string) (remove_dups (click_dates cs)))
    by apply NoDup_remove_dups.
  f_equal. apply set_eq. intros d.
  by rewrite !elem_of_list_to_set, elem_of_remove_dups.
Qed.

Lemma group_by_date_dates cs : (group_by_date cs).*1 = remove_dups (click_dates cs).
Proof.
  unfold group_by_date. rewrite <- list_fmap_compose.
  rewrite <- (list_fmap_id (remove_dups (click_dates cs))) at 2.
  by apply list_fmap_ext.
Qed.

Lemma elem_of_group_by_date cs d n :
  (d, n) ∈ group_by_date cs <->
  d ∈ click_dates cs /\
  n = length (filter (fun c => DATE (click_created_at c) = d) cs).
Proof.
  unfold group_by_date. rewrite list_elem_of_fmap. split.
  - intros (d' & Heq & Hd). rewrite elem_of_remove_dups in Hd. by simplify_eq.
  - intros [Hd ->]. exists d. split; [done|]. by rewrite elem_of_remove_dups.
Qed.

Lemma clicks_on_date_positive cs d :
  d ∈ click_dates cs ->
  (0 < length (filter (fun c => DATE (click_created_at c) = d) cs))%nat.
Proof.
  unfold click_dates. intros (c & -> & Hc)%list_elem_of_fmap.
  assert (Hin : c ∈ filter (fun c' => DATE (click_created_at c') =
                                     DATE (click_created_at c)) cs)
    by (by apply list_elem_of_filter).
  destruct (filter _ cs); [by apply elem_of_nil in Hin | simpl; lia].
Qed.

(** The rows of the daily query: what [GROUP BY], [ORDER BY date DESC] and
    [LIMIT 7] leave. *)
Lemma daily_clicks_spec cs :
  length (daily_clicks cs) = (7 `min` active_days cs)%nat /\
  StronglySorted date_desc (daily_clicks cs) /\
  NoDup (daily_clicks cs).*1 /\
  (forall d n, (d, n) ∈ daily_clicks cs ->
     d ∈ click_dates cs /\
     n = length (filter (fun c => DATE (click_created_at c) = d) cs) /\ (0 < n)%nat) /\
  (forall d, d ∈ click_dates cs ->
     d ∈ (daily_clicks cs).*1 \/
     forall e, e ∈ (daily_clicks cs).*1 -> String.le d e).
Proof.
  unfold daily_clicks.
  set (sorted := merge_sort date_desc (group_by_date cs)).
  assert (Hperm : sorted ≡ₚ group_by_date cs) by apply merge_sort_Permutation.
  assert (Hsorted : StronglySorted date_desc sorted)
    by (apply StronglySorted_merge_sort; apply _).
  assert (Hnodup : NoDup sorted.*1).
  { rewrite Hperm, group_by_date_dates. apply NoDup_remove_dups. }
  rewrite <- (take_drop 7 sorted) in Hsorted, Hnodup.
  rewrite fmap_app in Hnodup. apply NoDup_app in Hnodup as (Hnodup & _ & _).
  assert (Hsub : forall x, x ∈ take 7 sorted -> x ∈ group_by_date cs).
  { intros x Hx. rewrite <- Hperm, <- (take_drop 7 sorted), elem_of_app. by left. }
  split; [|split; [|split; [|split]]].
  - rewrite length_take, Hperm. unfold group_by_date, active_days. by rewrite length_fmap.
  - by apply StronglySorted_app_1_l in Hsorted.
  - done.
  - intros d n Hin. apply Hsub, elem_of_group_by_date in Hin as [Hd ->].
    split; [done|]. split; [done|]. by apply clicks_on_date_positive.
  - intros d Hd.
    assert (Hin : (d, length (filter (fun c => DATE (click_created_at c) = d) cs))
                  ∈ take 7 sorted ++ drop 7 sorted).
    { rewrite take_drop, Hperm. by apply elem_of_group_by_date. }
    apply elem_of_app in Hin as [Hin|Hin].
    + left. apply list_elem_of_fmap. by eexists (_, _).
    + right. intros e ([e' m] & -> & He)%list_elem_of_fmap.
      exact (StronglySorted_app_1_elem_of _ _ _ _ _ Hsorted He Hin).
Qed.

(** The queries against the reading of the specification. *)
Lemma DATE_calendar_date s : DATE s = calendar_date s.
Proof.
  unfold DATE, calendar_date. generalize 10%nat. intros n. revert s.
  induction n as [|n IH]; intros [|c s]; simpl; try done. by rewrite IH.
Qed.

Lemma click_dates_clicks_of id w :
  click_dates (clicks_of id w) = dates_clicked id (clicks w).
Proof.
  unfold click_dates, clicks_of. induction (clicks w) as [|c cs IH]; [done|].
  rewrite filter_cons. simpl. destruct (decide (click_link_id c = id)); [|done].
  rewrite fmap_cons, IH. by rewrite DATE_calendar_date.
Qed.

Lemma clicks_on_click_dates d cs :
  length (filter (fun c => DATE (click_created_at c) = d) cs) = clicks_on d (click_dates cs).
Proof.
  unfold click_dates. induction cs as [|c cs IH]; [done|].
  rewrite filter_cons, fmap_cons. simpl.
  destruct (decide (DATE (click_created_at c) = d)); simpl; by rewrite IH.
Qed.

Lemma total_clicks_dates id w :
  total_clicks (clicks_of id w) = length (dates_clicked id (clicks w)).
Proof.
  rewrite <- click_dates_clicks_of. unfold click_dates, total_clicks.
  by rewrite length_fmap.
Qed.

Lemma active_days_dates id w :
  active_days (clicks_of id w) =
  size (list_to_set (dates_clicked id (clicks w)) : gset string).
Proof. by rewrite active_days_size, click_dates_clicks_of. Qed.

Lemma find_id_first id (ls : list Link) :
  id ∈ link_id <$> ls ->
  exists before link after,
    ls = before ++ link :: after /\ (id ∉ link_id <$> before) /\ link_id link = id /\
    List.find (fun l => bool_decide (link_id l = id)) ls = Some link.
Proof.
  induction ls as [|l ls IH]; [by intros ?%elem_of_nil|].
  rewrite fmap_cons. intros Hin. simpl.
  destruct (bool_decide_reflect (link_id l = id)) as [Heq|Hne].
  - exists [], l, ls. split; [done|]. split; [apply not_elem_of_nil | done].
  - apply elem_of_cons in Hin as [Heq|Hin]; [congruence|].
    destruct (IH Hin) as (before & link & after & -> & Hfresh & Hid & Hfind).
    exists (l :: before), link, after. split; [done|].
    split; [|done]. rewrite fmap_cons, not_elem_of_cons. split; [congruence | done].
Qed.

Lemma StronglySorted_strict (rows : list (string * nat)) :
  StronglySorted date_desc rows -> NoDup rows.*1 ->
  StronglySorted (fun a b => String.le b.1 a.1 /\ a.1 <> b.1) rows.
Proof.
  induction 1 as [|x rows Hsorted IH Hall]; intros Hnd; [constructor|].
  rewrite fmap_cons in Hnd. apply NoDup_cons in Hnd as [Hfresh Hnd].
  constructor; [by apply IH|].
  rewrite Forall_forall in Hall |- *. intros y Hy. split; [by apply Hall|].
  intros Heq. apply Hfresh. rewrite Heq. by apply list_elem_of_fmap_2.
Qed.

(** C2. For an id of a row of [links], [GET /api/links/:id/analytics]
    answers 200 with [{success: true, data: ...}], the data being the seven
    columns of the first row with that id followed by [stats] and [daily].
    With [dates] the calendar dates of the clicks stored for that id, one
    per click: [total_clicks] is the number of those clicks and
    [active_days] the number of distinct dates among them; [daily] has one
    row [{date, clicks}] per date for the 7 latest of those dates, or for
    all of them when there are fewer, in strictly descending date order,
    each row counting the clicks on its date, and every date left out is
    no later than any date listed.  For an id of no row it answers 404
    "Link not found".  The store is unchanged, and [part_000] answers as
    [server.js] does. *)
Theorem C2_getAnalytics_aggregates id w :
  (id ∈ link_id <$> links w ->
   exists before link after daily,
     links w = before ++ link :: after /\
     (id ∉ link_id <$> before) /\ link_id link = id /\
     server (GetAnalytics id) w =
       (ResJson 200
          (JObj
             [("success", JBool true);
              ("data",
               JObj
                 [("id", JStr (link_id link));
                  ("user_id", JStr (link_user_id link));
                  ("original_url", JStr (original_url link));
                  ("short_code", JStr (short_code link));
                  ("title", match title link with Some t => JStr t | None => JNull end);
                  ("is_active", JNum (is_active link));
                  ("created_at", JStr (link_created_at link));
                  ("stats",
                   JObj
                     [("total_clicks",
                       JNum (Z.of_nat (length (dates_clicked id (clicks w)))));
                      ("active_days",
                       JNum (Z.of_nat (size (list_to_set (dates_clicked id (clicks w))
                                             : gset string))))]);
                  ("daily",
                   JArr ((fun row : string * nat =>
                            JObj [("date", JStr row.1);
                                  ("clicks", JNum (Z.of_nat row.2))]) <$> daily))])]),
        w) /\
     length daily =
       (7 `min` size (list_to_set (dates_clicked id (clicks w)) : gset string))%nat /\
     StronglySorted (fun a b : string * nat => String.le b.1 a.1 /\ a.1 <> b.1) daily /\
     (forall d n, (d, n) ∈ daily ->
        d ∈ dates_clicked id (clicks w) /\
        n = clicks_on d (dates_clicked id (clicks w)) /\ (0 < n)%nat) /\
     (forall d, d ∈ dates_clicked id (clicks w) ->
        d ∈ daily.*1 \/ forall e, e ∈ daily.*1 -> String.le d e)) /\
  ((id ∉ link_id <$> links w) ->
   server (GetAnalytics id) w =
     (ResJson 404 (JObj [("error", JStr "Link not found")]), w)) /\
  part_000 (GetAnalytics id) w = server (GetAnalytics id) w.
Proof.
  split; [|split; [|done]].
  - intros Hin.
    destruct (find_id_first id (links w) Hin)
      as (before & link & after & Hsplit & Hfresh & Hid & Hfind).
    exists before, link, after, (daily_clicks (clicks_of id w)).
    destruct (daily_clicks_spec (clicks_of id w))
      as (Hlen & Hsorted & Hnodup & Hcount & Hrecent).
    rewrite active_days_size, click_dates_clicks_of in Hlen.
    rewrite click_dates_clicks_of in Hrecent.
    split; [done|]. split; [done|]. split; [done|]. split.
    { unfold server, respond. rewrite (getAnalytics_found id link w Hfind).
      rewrite <- total_clicks_dates, <- active_days_dates.
      unfold success_body, stats_json, link_fields, nullable, daily_json.
      by destruct (title link). }
    split; [done|]. split; [by apply StronglySorted_strict|]. split; [|done].
    intros d n Hrow. destruct (Hcount d n Hrow) as (Hd & -> & Hpos).
    rewrite clicks_on_click_dates, click_dates_clicks_of in *. done.
  - intros Hout. unfold server, respond.
    by rewrite (getAnalytics_missing id w (find_id_none id (links w) Hout)).
Qed.


End Properties.

(** ** The properties on the concrete platform *)

(** C1. The click insert of [GET /:shortCode] runs before [res.redirect] and
    outside any [try]: on a store where the short code ["abc123"] resolves
    to an active link and the insert fails (the drawn click id is already a
    primary key), the error leaves the handler and no redirect is issued,
    in [server.js] and in [part_000] alike. *)
Theorem C1_failed_click_insert_loses_the_redirect :
  List.find (fun l => bool_decide (short_code l = "abc123") && bool_decide (is_active l = 1))
            (links Demo.collision) = Some Demo.example_link /\
  fst (server (GetShortCode Demo.no_headers "abc123") Demo.collision) =
    ResUncaught "UNIQUE constraint failed: clicks.id" /\
  fst (part_000 (GetShortCode Demo.no_headers "abc123") Demo.collision) =
    ResUncaught "UNIQUE constraint failed: clicks.id" /\
  is_redirect_to (original_url Demo.example_link)
    (fst (server (GetShortCode Demo.no_headers "abc123") Demo.collision)) = false.
Proof. vm_compute. done. Qed.

(** The visit of an inactive code on the example store. *)
Lemma C6_witness :
  (forall l, l ∈ links Demo.world -> short_code l = "old001" -> is_active l = 0) /\
  server (GetShortCode Demo.no_headers "old001") Demo.world =
    (ResJson 404 (error_body "Link not found"), Demo.world).
Proof.
  assert (Hall : forall l, l ∈ links Demo.world -> short_code l = "old001" -> is_active l = 0).
  { intros l Hin Hc. simpl in Hin.
    apply elem_of_cons in Hin as [->|Hin]; [done|].
    apply elem_of_cons in Hin as [->|Hin]; [done|].
    by apply elem_of_nil in Hin. }
  split; [exact Hall|].
  exact (proj1 (C6_unknown_or_inactive_code_is_404 Demo.no_headers "old001" Demo.world Hall)).
Defined.

(** The health check is a success whose body is not wrapped. *)
Lemma C3_health_is_not_wrapped :
  exists body,
    fst (server GetHealth Demo.fresh) = ResJson 200 body /\
    fst (part_000 GetHealth Demo.fresh) = ResJson 200 body /\
    is_success_envelope body = false.
Proof. eexists. vm_compute. done. Qed.

(** The envelope of a successful login on the example store. *)
Lemma C3_witness :
  PostLogin (Some "a@x.com") (Some "secret1") <> GetHealth /\
  (exists body w',
     server (PostLogin (Some "a@x.com") (Some "secret1")) Demo.world = (ResJson 200 body, w') /\
     is_success_envelope body = true).
Proof.
  split; [done|].
  eexists _, _. split; [vm_compute; reflexivity|].
  eapply (proj1 (C3_success_envelope_except_health
                   (PostLogin (Some "a@x.com") (Some "secret1")) Demo.world));
    [done|].
  left. vm_compute. reflexivity.
Defined.

(** With a second space in the header the token is not what follows the
    first space, and a valid token behind a two-word prefix is refused. *)
Lemma C9_token_is_not_the_rest_of_the_header :
  occurs space "Bearer abc def" = true /\
  after_first space "Bearer abc def" = "abc def" /\
  token_of (Some "Bearer abc def") = Some "abc" /\
  token_of (Some "Bearer abc def") <> Some (after_first space "Bearer abc def") /\
  let token := Demo.sign (mkPayload "u000000001" "a@x.com") in
  jwt_verify token (clock Demo.world) = Some (mkPayload "u000000001" "a@x.com") /\
  fst (server (GetLinks (mkHeaders (Some ("My Scheme " +:+ token)) None None)) Demo.world) =
    ResJson 403 (error_body "Invalid or expired token").
Proof. vm_compute. repeat split; done. Qed.

(** Any scheme word in front of a valid token, and a bare valid token. *)
Lemma C9_witness :
  let token := Demo.sign (mkPayload "u000000001" "a@x.com") in
  occurs space "Basic" = false /\ occurs space token = false /\
  authenticateToken (mkHeaders (Some ("Basic " +:+ token)) None None)
    (fun user => listLinks (payload_id user)) Demo.world =
  authenticate_with token (fun user => listLinks (payload_id user)) Demo.world /\
  authenticateToken (mkHeaders (Some token) None None)
    (fun user => listLinks (payload_id user)) Demo.world =
  (Ok (ResJson 401 (error_body "Access token required")), Demo.world).
Proof.
  intros token.
  assert (Hs : occurs space "Basic" = false) by reflexivity.
  assert (Ht : occurs space token = false) by reflexivity.
  pose proof (C9_scheme_word_is_never_checked "Basic" token token None None
                (fun user => listLinks (payload_id user)) Demo.world Hs Ht Ht)
    as (_ & _ & Hauth & _ & Hbare).
  split; [exact Hs|]. split; [exact Ht|]. split; [exact Hauth | exact Hbare].
Defined.

(** *** The concrete platform honours the library contracts *)

Lemma demo_nanoid_sized : @nanoid_sized Demo.platform.
Proof.
  intros size g. simpl. revert g.
  induction size as [|size IH]; intros g; simpl; [done|]. by rewrite IH.
Qed.

Lemma demo_bcrypt_sound : @bcrypt_sound Demo.platform.
Proof. intros password g. simpl. by apply bool_decide_eq_true_2. Qed.

Lemma demo_take_chars a b : Demo.take_chars (String.length a) (a +:+ b) = Some (a, b).
Proof. induction a as [|c a IH]; simpl; [done|]. by rewrite IH. Qed.

Lemma demo_decode_unary n m rest :
  Demo.decode_from n (Demo.unary m rest) =
  match Demo.take_chars (n + m) rest with
  | Some (id, email) => Some (mkPayload id email)
  | None => None
  end.
Proof.
  revert n. induction m as [|m IH]; intros n; simpl.
  - by rewrite Nat.add_0_r.
  - rewrite IH. by rewrite Nat.add_succ_r.
Qed.

Lemma demo_jwt_decodes : @jwt_decodes Demo.platform.
Proof.
  intros [id email] t. simpl. unfold Demo.sign. simpl.
  rewrite demo_decode_unary. simpl. by rewrite demo_take_chars.
Qed.

(** *** Runs of the example store *)

(** Membership and absence in a list that is written out. *)
Ltac listed :=
  first [ by repeat first [ apply list_elem_of_here | apply list_elem_of_further ]
        | rewrite ?not_elem_of_cons; repeat split; first [ done | apply not_elem_of_nil ] ].

(** How a row of [daily] is rendered. *)
Definition rendered_day (row : string * nat) : JSON :=
  JObj [("date", JStr row.1); ("clicks", JNum (Z.of_nat row.2))].

Lemma rendered_day_inj : Inj (=) (=) rendered_day.
Proof.
  intros [d n] [d' n'] Heq. unfold rendered_day in Heq. simpl in Heq.
  injection Heq as -> Hn. by rewrite (Nat2Z.inj _ _ Hn).
Qed.

(** The analytics of the example link, which has 11 clicks over 9 dates,
    two of them on 2026-02-03 and two on 2026-02-05, and one click of
    another link in between. *)
Lemma demo_analytics :
  server (GetAnalytics "L000000001") Demo.world =
    (ResJson 200
       (JObj
          [("success", JBool true);
           ("data",
            JObj
              [("id", JStr "L000000001"); ("user_id", JStr "u000000001");
               ("original_url", JStr "https://example.com");
               ("short_code", JStr "abc123"); ("title", JNull);
               ("is_active", JNum 1); ("created_at", JStr "2026-02-05 09:30:00");
               ("stats", JObj [("total_clicks", JNum 11); ("active_days", JNum 9)]);
               ("daily",
                JArr (rendered_day <$>
                      [("2026-02-05", 2%nat); ("2026-02-04", 1%nat); ("2026-02-03", 2%nat);
                       ("2026-02-02", 1%nat); ("2026-02-01", 1%nat); ("2026-01-31", 1%nat);
                       ("2026-01-30", 1%nat)]))])]),
     Demo.world).
Proof. vm_compute. reflexivity. Qed.

(** The [daily] array of an analytics response. *)
Definition daily_items (r : Response) : list JSON :=
  match r with
  | ResJson _ (JObj [_; (_, JObj [_; _; _; _; _; _; _; _; (_, JArr items)])]) => items
  | _ => []
  end.

Lemma size_distinct (dates : list string) :
  size (list_to_set dates : gset string) = length (remove_dups dates).
Proof.
  rewrite <- (size_list_to_set (C:=gset string) (remove_dups dates))
    by apply NoDup_remove_dups.
  f_equal. apply set_eq. intros d.
  by rewrite !elem_of_list_to_set, elem_of_remove_dups.
Qed.

Lemma C2_witness :
  ("L000000001" ∈ link_id <$> links Demo.world) /\
  ("L000000009" ∉ link_id <$> links Demo.world) /\
  (exists before link after daily,
     links Demo.world = before ++ link :: after /\
     link = Demo.example_link /\
     server (GetAnalytics "L000000001") Demo.world =
       (ResJson 200
          (JObj
             [("success", JBool true);
              ("data",
               JObj
                 [("id", JStr "L000000001"); ("user_id", JStr "u000000001");
                  ("original_url", JStr "https://example.com");
                  ("short_code", JStr "abc123"); ("title", JNull);
                  ("is_active", JNum 1); ("created_at", JStr "2026-02-05 09:30:00");
                  ("stats", JObj [("total_clicks", JNum 11); ("active_days", JNum 9)]);
                  ("daily", JArr (rendered_day <$> daily))])]),
        Demo.world) /\
     length (dates_clicked "L000000001" (clicks Demo.world)) = 11%nat /\
     size (list_to_set (dates_clicked "L000000001" (clicks Demo.world)) : gset string)
       = 9%nat /\
     daily = [("2026-02-05", 2%nat); ("2026-02-04", 1%nat); ("2026-02-03", 2%nat);
              ("2026-02-02", 1%nat); ("2026-02-01", 1%nat); ("2026-01-31", 1%nat);
              ("2026-01-30", 1%nat)] /\
     (forall d n, (d, n) ∈ daily ->
        n = clicks_on d (dates_clicked "L000000001" (clicks Demo.world)))) /\
  server (GetAnalytics "L000000009") Demo.world =
    (ResJson 404 (JObj [("error", JStr "Link not found")]), Demo.world).
Proof.
  assert (Hin : "L000000001" ∈ link_id <$> links Demo.world) by (simpl; listed).
  assert (Hout : "L000000009" ∉ link_id <$> links Demo.world) by (simpl; listed).
  assert (Hlen : length (dates_clicked "L000000001" (clicks Demo.world)) = 11%nat)
    by (vm_compute; reflexivity).
  assert (Hsize : size (list_to_set (dates_clicked "L000000001" (clicks Demo.world))
                        : gset string) = 9%nat)
    by (rewrite size_distinct; vm_compute; reflexivity).
  split; [exact Hin|]. split; [exact Hout|].
  destruct (C2_getAnalytics_aggregates "L000000001" Demo.world) as (Hfound & _ & _).
  destruct (C2_getAnalytics_aggregates "L000000009" Demo.world) as (_ & Hmissing & _).
  split; [|exact (Hmissing Hout)].
  destruct (Hfound Hin)
    as (before & link & after & daily & Hsplit & Hfresh & Hid & Hrun & _ & _ & Hcount & _).
  rewrite Hlen, Hsize in Hrun.
  assert (Hlink : link = Demo.example_link).
  { destruct before as [|b before]; simpl in Hsplit; [by injection Hsplit|].
    injection Hsplit as <- Hrest.
    exfalso. apply Hfresh. simpl. left. }
  assert (Hdaily : rendered_day <$> daily =
                   rendered_day <$>
                   [("2026-02-05", 2%nat); ("2026-02-04", 1%nat); ("2026-02-03", 2%nat);
                    ("2026-02-02", 1%nat); ("2026-02-01", 1%nat); ("2026-01-31", 1%nat);
                    ("2026-01-30", 1%nat)]).
  { transitivity (daily_items (fst (server (GetAnalytics "L000000001") Demo.world))).
    - by rewrite Hrun.
    - by rewrite demo_analytics. }
  apply (@inj _ _ (=) (=) _ (@list_fmap_eq_inj _ _ rendered_day rendered_day_inj)) in Hdaily.
  exists before, link, after, daily.
  split; [exact Hsplit|]. split; [exact Hlink|]. split.
  { rewrite Hrun, Hlink. reflexivity. }
  split; [exact Hlen|]. split; [exact Hsize|]. split; [exact Hdaily|].
  intros d n Hrow. by destruct (Hcount d n Hrow) as (_ & -> & _).
Defined.

(** Creating a link with an empty custom code on the example store. *)
Lemma demo_createLink_empty_code :
  exists body w',
    createLink "u000000001" (Some "https://example.com/page") None (Some "") Demo.world =
      (Ok (ResJson 200 body), w') /\
    short_code <$> links w' = ["abc123"; "old001"; "useand"].
Proof. eexists _, _. split; [vm_compute; reflexivity|]. reflexivity. Qed.

(** A supplied custom code, the empty one, is not what gets stored. *)
Lemma C4_empty_customCode_is_not_stored :
  exists body w',
    createLink "u000000001" (Some "https://example.com/page") None (Some "") Demo.world =
      (Ok (ResJson 200 body), w') /\
    short_code <$> links w' = ["abc123"; "old001"; "useand"] /\
    ("" ∉ short_code <$> links w').
Proof.
  destruct demo_createLink_empty_code as (body & w' & Hrun & Hcodes).
  exists body, w'. split; [done|]. split; [done|]. rewrite Hcodes. listed.
Qed.

(** A custom code, a taken code and a drawn code on the example store. *)
Lemma C4_witness :
  @nanoid_sized Demo.platform /\
  chosen_code (Some "promo1") Demo.world = "promo1" /\
  String.length (chosen_code None Demo.world) = 6%nat /\
  (exists message w',
     createLink "u000000001" (Some "https://example.com/page") None (Some "abc123")
       Demo.world = (Ok (ResJson 400 (error_body message)), w') /\
     links w' = links Demo.world) /\
  (exists body w',
     createLink "u000000001" (Some "https://example.com/page") None (Some "promo1")
       Demo.world = (Ok (ResJson 200 body), w')).
Proof.
  split; [exact demo_nanoid_sized|].
  destruct (C4_createLink_short_code "u000000001" "https://example.com/page" None
              (Some "promo1") Demo.world demo_nanoid_sized)
    as (Hcustom & _ & _ & _ & Hruns).
  destruct (C4_createLink_short_code "u000000001" "https://example.com/page" None
              None Demo.world demo_nanoid_sized)
    as (_ & Hdrawn & _ & _ & _).
  destruct (C4_createLink_short_code "u000000001" "https://example.com/page" None
              (Some "abc123") Demo.world demo_nanoid_sized)
    as (_ & _ & Htaken & _ & _).
  split; [by apply Hcustom|].
  split; [apply Hdrawn; by left|].
  split.
  - destruct Htaken as (message & w' & Hrun & Hrows & _); [simpl; listed|].
    by exists message, w'.
  - apply Hruns; [done | simpl; listed | simpl; listed | simpl; listed].
Defined.

(** A second registration of an email of the example store. *)
Lemma C5_witness :
  ("a@x.com" ∈ user_email <$> users Demo.world) /\
  (exists message,
     server (PostRegister (Some "c@x.com") (Some "short")) Demo.world =
       (ResJson 400 (error_body message), Demo.world)) /\
  (exists w',
     server (PostRegister (Some "a@x.com") (Some "secret1")) Demo.world =
       (ResJson 400 (error_body "Email already registered"), w') /\
     users w' = users Demo.world).
Proof.
  assert (Hdup : "a@x.com" ∈ user_email <$> users Demo.world) by (simpl; listed).
  split; [exact Hdup|]. split.
  - apply (proj1 (C5_register_rejects_invalid_and_duplicate
                    (Some "c@x.com") (Some "short") Demo.world)).
    right. right. exists "short". split; [done | simpl; lia].
  - destruct (proj2 (C5_register_rejects_invalid_and_duplicate
                       (Some "a@x.com") (Some "secret1") Demo.world)
                    "a@x.com" eq_refl Hdup)
      as (message & w' & Hrun & Husers & Hmessage).
    exists w'. rewrite Hrun, Hmessage; [done | done |].
    exists "secret1". split; [done | simpl; lia].
Defined.

(** Registering a new email on the example store, then logging in. *)
Lemma C7_witness :
  @bcrypt_sound Demo.platform /\ @jwt_decodes Demo.platform /\
  ("b@x.com" ∉ user_email <$> users Demo.world) /\
  exists body w1 id token',
    server (PostRegister (Some "b@x.com") (Some "secret1")) Demo.world =
      (ResJson 200 body, w1) /\
    server (PostLogin (Some "b@x.com") (Some "secret1")) w1 =
      (ResJson 200 (success_body
         (JObj [("user", user_json id "b@x.com"); ("token", JStr token')])), w1) /\
    @jwt_decode Demo.platform token' = Some (mkPayload id "b@x.com").
Proof.
  assert (Hfresh : "b@x.com" ∉ user_email <$> users Demo.world) by (simpl; listed).
  split; [exact demo_bcrypt_sound|]. split; [exact demo_jwt_decodes|].
  split; [exact Hfresh|].
  destruct (C7_register_then_login "b@x.com" "secret1" Demo.world
              demo_bcrypt_sound demo_jwt_decodes) as [Hruns Hlogin];
    [done | simpl; lia | exact Hfresh |].
  destruct Hruns as (body & w1 & Hrun); [simpl; listed|].
  destruct (Hlogin body w1 Hrun) as (id & token & _ & _ & Hlater).
  destruct (Hlater w1 [] (eq_sym (app_nil_r _))) as (token' & Hrun' & Hdecode & _).
  by exists body, w1, id, token'.
Defined.


(** An empty custom code on the example store. *)
Lemma C10_witness :
  @nanoid_sized Demo.platform /\
  createLink "u000000001" (Some "https://example.com/page") None (Some "") Demo.world =
  createLink "u000000001" (Some "https://example.com/page") None None Demo.world /\
  exists body w' link,
    createLink "u000000001" (Some "https://example.com/page") None (Some "") Demo.world =
      (Ok (ResJson 200 body), w') /\
    links w' = links Demo.world ++ [link] /\
    String.length (short_code link) = 6%nat.
Proof.
  split; [exact demo_nanoid_sized|].
  destruct (C10_empty_customCode_is_absent "u000000001" (Some "https://example.com/page")
              None Demo.world demo_nanoid_sized) as [Hsame Hstored].
  split; [exact Hsame|].
  destruct demo_createLink_empty_code as (body & w' & Hrun & _).
  destruct (Hstored body w' Hrun) as (link & Hrows & _ & Hlen & _).
  by exists body, w', link.
Defined.

(** ** Further properties of the handlers *)

Section Coverage.

Context `{Platform}.

(** Unfolding a handler down to the store. *)
Ltac unfold_handlers :=
  unfold server, part_000, respond, health, register, login, createLink, listLinks,
    resolveAndRedirect, getAnalytics, authenticateToken,
    select_user_by_email, select_active_link, select_link_by_id, select_stats,
    select_daily, select_links_of, draw_nanoid, hash_password, sign_token,
    insert_user, insert_link, insert_click, try_catch, bind, ret in *.

Lemma truthy_Some s : s <> "" -> truthy (Some s) = true.
Proof. intros Hs. simpl. by rewrite (bool_decide_eq_false_2 _ Hs). Qed.

Lemma js_not_Some s : s <> "" -> js_not (Some s) = false.
Proof. intros Hs. unfold js_not. by rewrite truthy_Some. Qed.

Lemma find_email_none e (us : list User) :
  (e ∉ user_email <$> us) ->
  List.find (fun u => bool_decide (user_email u = e)) us = None.
Proof.
  induction us as [|u us IH]; [done|]. rewrite fmap_cons, not_elem_of_cons.
  intros [Hne Hrest]. simpl. rewrite bool_decide_eq_false_2; [by apply IH | congruence].
Qed.

(** *** Login *)

(** X1. The four ways [POST /api/auth/login] ends, none of which changes
    the store: 400 when the email or the password is absent or empty; 401
    "Invalid credentials" when no row of [users] has the email; the same
    401 when [bcrypt.compare] refuses the password against the hash of the
    first row with that email; and otherwise 200 with that row's id and
    email and a token signed for them. *)
Theorem X1_login_outcomes email password w :
  (email = None \/ email = Some "" \/ password = None \/ password = Some "" ->
   server (PostLogin email password) w =
     (ResJson 400 (error_body "Email and password are required"), w)) /\
  (forall e p, email = Some e -> password = Some p -> e <> "" -> p <> "" ->
     ((e ∉ user_email <$> users w) ->
      server (PostLogin email password) w =
        (ResJson 401 (error_body "Invalid credentials"), w)) /\
     (forall user,
        List.find (fun u => bool_decide (user_email u = e)) (users w) = Some user ->
        server (PostLogin email password) w =
          if bcrypt_compare p (user_password_hash user) then
            (ResJson 200 (success_body
               (JObj [("user", user_json (user_id user) (user_email user));
                      ("token",
                       JStr (jwt_sign (mkPayload (user_id user) (user_email user))
                                      (clock w)))])), w)
          else (ResJson 401 (error_body "Invalid credentials"), w))).
Proof.
  split.
  - intros Hbad. unfold server, respond, login, ret.
    assert (Hnot : js_not email || js_not password = true).
    { destruct Hbad as [-> | [-> | [-> | ->]]]; simpl; by rewrite ?orb_true_r. }
    by rewrite Hnot.
  - intros e p -> -> He Hp. unfold server, respond, login.
    rewrite (js_not_Some e He), (js_not_Some p Hp). simpl.
    unfold bind, select_user_by_email, sign_token, ret. simpl. split.
    + intros Hnone. by rewrite (find_email_none e (users w) Hnone).
    + intros user Hfind. rewrite Hfind.
      by destruct (bcrypt_compare p (user_password_hash user)).
Qed.

(** *** The protected routes *)

(** X2. Without a usable token neither protected route of [server.js] runs
    its handler: when the [Authorization] header is absent, or yields no
    token or an empty one, [POST /api/links] and [GET /api/links] answer
    401; when [jwt.verify] refuses the token they answer 403; and in both
    cases the store is untouched, so no link is created and no id drawn. *)
Theorem X2_protected_routes_need_a_token headers originalUrl ttl customCode w :
  (js_not (token_of (authorization headers)) = true ->
   server (PostLinks headers originalUrl ttl customCode) w =
     (ResJson 401 (error_body "Access token required"), w) /\
   server (GetLinks headers) w =
     (ResJson 401 (error_body "Access token required"), w)) /\
  (js_not (token_of (authorization headers)) = false ->
   jwt_verify (str (token_of (authorization headers))) (clock w) = None ->
   server (PostLinks headers originalUrl ttl customCode) w =
     (ResJson 403 (error_body "Invalid or expired token"), w) /\
   server (GetLinks headers) w =
     (ResJson 403 (error_body "Invalid or expired token"), w)) /\
  (authorization headers = None ->
   js_not (token_of (authorization headers)) = true).
Proof.
  split; [|split].
  - intros Hnot. unfold server, respond, authenticateToken, ret. by rewrite Hnot.
  - intros Hnot Hverify. unfold server, respond, authenticateToken, ret.
    by rewrite Hnot, Hverify.
  - by intros ->.
Qed.

(** *** Listing links *)

Global Instance link_newer_total : Total link_newer.
Proof.
  intros a b. unfold link_newer.
  destruct (total String.le (link_created_at a) (link_created_at b)); auto.
Qed.

Global Instance link_newer_trans : Transitive link_newer.
Proof. intros a b c H1 H2. unfold link_newer in *. by etrans. Qed.

Lemma listLinks_rows owner w :
  exists rows,
    listLinks owner w =
      (Ok (ResJson 200 (success_body (JArr ((fun l => JObj (link_fields l)) <$> rows)))),
       w) /\
    rows ≡ₚ filter (fun l => link_user_id l = owner) (links w) /\
    StronglySorted link_newer rows /\
    (forall l, l ∈ rows <-> l ∈ links w /\ link_user_id l = owner).
Proof.
  eexists. split; [reflexivity|].
  split; [apply merge_sort_Permutation|].
  split; [apply StronglySorted_merge_sort; apply _|].
  intros l. rewrite merge_sort_Permutation, list_elem_of_filter. tauto.
Qed.

(** X3. [GET /api/links] is scoped to its owner: for the user of a verified
    token in [server.js], and for ['demo-user'] in [part_000], it answers
    200 with exactly the rows of [links] whose [user_id] is the owner's, each
    once, ordered by [created_at] descending, and leaves the store as it
    was. *)
Theorem X3_listLinks_is_owner_scoped headers token user w :
  token_of (authorization headers) = Some token -> token <> "" ->
  jwt_verify token (clock w) = Some user ->
  (exists rows,
     server (GetLinks headers) w =
       (ResJson 200 (success_body (JArr ((fun l => JObj (link_fields l)) <$> rows))), w) /\
     rows ≡ₚ filter (fun l => link_user_id l = payload_id user) (links w) /\
     StronglySorted link_newer rows /\
     (forall l, l ∈ rows <-> l ∈ links w /\ link_user_id l = payload_id user)) /\
  (exists rows,
     part_000 (GetLinks headers) w =
       (ResJson 200 (success_body (JArr ((fun l => JObj (link_fields l)) <$> rows))), w) /\
     rows ≡ₚ filter (fun l => link_user_id l = "demo-user") (links w) /\
     StronglySorted link_newer rows /\
     (forall l, l ∈ rows <-> l ∈ links w /\ link_user_id l = "demo-user")).
Proof.
  intros Htok Hne Hverify. split.
  - destruct (listLinks_rows (payload_id user) w) as (rows & Hrun & Hrows).
    exists rows. split; [|exact Hrows].
    unfold server, respond. rewrite (authenticateToken_with _ _ _ _ Htok).
    unfold authenticate_with. rewrite (bool_decide_eq_false_2 _ Hne), Hverify.
    by rewrite Hrun.
  - destruct (listLinks_rows "demo-user" w) as (rows & Hrun & Hrows).
    exists rows. split; [|exact Hrows].
    unfold part_000, respond. by rewrite Hrun.
Qed.

(** *** Creating links: the edges *)

(** X4. [POST /api/links] validates [originalUrl] before anything else in
    its handler: when it is absent or the empty string the answer is 400
    "originalUrl is required" and the store, generator included, is as it
    was.  In [server.js] this is reached only behind a verified token. *)
Theorem X4_createLink_requires_originalUrl headers originalUrl ttl customCode token user w :
  originalUrl = None \/ originalUrl = Some "" ->
  part_000 (PostLinks headers originalUrl ttl customCode) w =
    (ResJson 400 (error_body "originalUrl is required"), w) /\
  (token_of (authorization headers) = Some token -> token <> "" ->
   jwt_verify token (clock w) = Some user ->
   server (PostLinks headers originalUrl ttl customCode) w =
     (ResJson 400 (error_body "originalUrl is required"), w)).
Proof.
  intros Habs.
  assert (Hnot : js_not originalUrl = true) by (by destruct Habs as [-> | ->]).
  split.
  - unfold part_000, respond. by rewrite (createLink_absent _ _ _ _ _ Hnot).
  - intros Htok Hne Hverify.
    rewrite (proj1 (routes_run_createLink headers originalUrl ttl customCode token user w
                      Htok Hne Hverify)).
    unfold respond. by rewrite (createLink_absent _ _ _ _ _ Hnot).
Qed.

(** X5. The [catch] of [createLink] cannot tell which key collided: when
    the id drawn by [nanoid(10)] is the id of a row of [links], the answer
    is 400 "Short code already exists", whether or not the short code is
    taken, and no table changes. *)
Theorem X5_createLink_id_collision owner url ttl customCode w :
  url <> "" ->
  fst (nanoid 10 (chosen_rng customCode w)) ∈ link_id <$> links w ->
  exists w',
    createLink owner (Some url) ttl customCode w =
      (Ok (ResJson 400 (error_body "Short code already exists")), w') /\
    users w' = users w /\ links w' = links w /\ clicks w' = clicks w.
Proof.
  intros Hurl Htaken. rewrite (createLink_present _ _ _ _ _ Hurl).
  unfold createLink_attempt.
  destruct (nanoid 10 (chosen_rng customCode w)) as [id g2]. simpl in Htaken.
  rewrite (bool_decide_eq_true_2 _ Htaken). simpl. eauto.
Qed.

(** X6. The [catch] of [register] cannot tell which key collided either:
    when the id drawn by [nanoid(10)] is the id of a row of [users], a
    valid registration is answered 400 "Email already registered", whether
    or not the email is taken, and no table changes. *)
Theorem X6_register_id_collision e p w :
  e <> "" -> (6 <= String.length p)%nat ->
  fst (nanoid 10 (rng w)) ∈ user_id <$> users w ->
  exists w',
    server (PostRegister (Some e) (Some p)) w =
      (ResJson 400 (error_body "Email already registered"), w') /\
    users w' = users w /\ links w' = links w /\ clicks w' = clicks w.
Proof.
  intros He Hp Htaken. unfold server, respond.
  rewrite (register_valid e p w He Hp). unfold register_attempt.
  destruct (nanoid 10 (rng w)) as [id g1]. simpl in Htaken.
  destruct (bcrypt_hash p g1) as [h g2].
  rewrite (bool_decide_eq_true_2 _ Htaken). simpl. eauto.
Qed.

(** X7. When foreign keys are enforced, [createLink] for an owner with no
    row in [users] never stores a link: with a URL present and no key
    collision, the insert fails and the [catch] passes the message on as a
    500 "FOREIGN KEY constraint failed".  This is every such call of
    [part_000] on a store without a ['demo-user'] row. *)
Theorem X7_createLink_unknown_owner owner url ttl customCode w :
  foreign_keys = true ->
  url <> "" ->
  (owner ∉ user_id <$> users w) ->
  (chosen_code customCode w ∉ short_code <$> links w) ->
  (fst (nanoid 10 (chosen_rng customCode w)) ∉ link_id <$> links w) ->
  exists w',
    createLink owner (Some url) ttl customCode w =
      (Ok (ResJson 500 (error_body "FOREIGN KEY constraint failed")), w') /\
    users w' = users w /\ links w' = links w /\ clicks w' = clicks w.
Proof.
  intros Hfk Hurl Howner Hcode Hid. rewrite (createLink_present _ _ _ _ _ Hurl).
  unfold createLink_attempt.
  destruct (nanoid 10 (chosen_rng customCode w)) as [id g2]. simpl in Hid.
  rewrite (bool_decide_eq_false_2 _ Hid), (bool_decide_eq_false_2 _ Hcode).
  rewrite (bool_decide_eq_false_2 _ Howner), Hfk. simpl. eauto.
Qed.

(** *** Redirects and clicks *)

Lemma find_active_unique (ls : list Link) link :
  NoDup (short_code <$> ls) -> link ∈ ls -> is_active link = 1 ->
  List.find (fun l => bool_decide (short_code l = short_code link) &&
                      bool_decide (is_active l = 1)) ls = Some link.
Proof.
  induction ls as [|l ls IH]; [by intros _ ?%elem_of_nil|].
  rewrite fmap_cons, NoDup_cons. intros [Hfresh Hnd] Hin Hact. simpl.
  apply elem_of_cons in Hin as [<-|Hin].
  - by rewrite !bool_decide_eq_true_2.
  - rewrite (bool_decide_eq_false_2 (short_code l = short_code link)); [by apply IH|].
    intros Heq. apply Hfresh. rewrite Heq. by apply list_elem_of_fmap_2.
Qed.

Lemma find_active_elem code (ls : list Link) link :
  List.find (fun l => bool_decide (short_code l = code) &&
                      bool_decide (is_active l = 1)) ls = Some link ->
  link ∈ ls /\ short_code link = code /\ is_active link = 1.
Proof.
  intros Hfind. apply find_some in Hfind as [Hin Htest].
  apply andb_true_iff in Htest as [Hc Ha].
  apply bool_decide_eq_true in Hc, Ha. split; [by apply list_elem_of_In | done].
Qed.

(** The click row a visit inserts. *)
Definition click_of_visit (headers : Headers) (link : Link) (w : World) : Click :=
  mkClick (fst (nanoid 10 (rng w))) (link_id link)
          (js_or_null (header_user_agent headers)) (js_or_null (header_referer headers))
          None (CURRENT_TIMESTAMP (clock w)).

Lemma resolveAndRedirect_found headers code link w :
  List.find (fun l => bool_decide (short_code l = code) &&
                      bool_decide (is_active l = 1)) (links w) = Some link ->
  (fst (nanoid 10 (rng w)) ∉ click_id <$> clicks w) ->
  resolveAndRedirect headers code w =
    (Ok (ResRedirect 302 (original_url link)),
     mkWorld (users w) (links w) (clicks w ++ [click_of_visit headers link w])
             (snd (nanoid 10 (rng w))) (clock w)).
Proof.
  intros Hfind Hfresh. pose proof (find_active_elem _ _ _ Hfind) as (Hin & _ & _).
  unfold_handlers. rewrite Hfind. unfold click_of_visit.
  destruct (nanoid 10 (rng w)) as [id g]. simpl in *.
  rewrite (bool_decide_eq_false_2 _ Hfresh).
  rewrite (bool_decide_eq_true_2 (link_id link ∈ link_id <$> links w)), andb_false_r;
    [done | by apply list_elem_of_fmap_2].
Qed.

(** X8. A visit of an active link of a store with unique short codes, when
    the drawn click id is free, answers with a 302 redirect to the link's
    original URL and stores exactly one click: the drawn id, the link's
    id, the [User-Agent] and [Referer] headers with absent and empty ones
    as NULL, no country, and the current timestamp.  [users] and [links]
    are unchanged; [server.js] and [part_000] agree. *)
Theorem X8_visit_redirects_and_records_one_click headers link w :
  NoDup (short_code <$> links w) -> link ∈ links w -> is_active link = 1 ->
  (fst (nanoid 10 (rng w)) ∉ click_id <$> clicks w) ->
  exists w',
    server (GetShortCode headers (short_code link)) w =
      (ResRedirect 302 (original_url link), w') /\
    part_000 (GetShortCode headers (short_code link)) w =
      (ResRedirect 302 (original_url link), w') /\
    users w' = users w /\ links w' = links w /\
    clicks w' = clicks w ++
      [mkClick (fst (nanoid 10 (rng w))) (link_id link)
               (js_or_null (header_user_agent headers))
               (js_or_null (header_referer headers))
               None (CURRENT_TIMESTAMP (clock w))].
Proof.
  intros Hcodes Hin Hact Hfresh.
  pose proof (find_active_unique _ _ Hcodes Hin Hact) as Hfind.
  eexists. unfold server, part_000, respond.
  rewrite (resolveAndRedirect_found _ _ _ _ Hfind Hfresh). done.
Qed.


(** *** Creating, then visiting *)

(** A successful [createLink] found its code and its id free. *)
Lemma createLink_success_fresh owner url ttl customCode w body w' :
  createLink owner (Some url) ttl customCode w = (Ok (ResJson 200 body), w') ->
  (chosen_code customCode w ∉ short_code <$> links w) /\
  exists id,
    (id ∉ link_id <$> links w) /\
    users w' = users w /\ clicks w' = clicks w /\
    links w' = links w ++ [mkLink id owner url (chosen_code customCode w) (js_or_null ttl) 1
                                  (CURRENT_TIMESTAMP (clock w))].
Proof.
  intros Hrun. destruct (decide (url = "")) as [->|Hurl].
  { rewrite createLink_absent in Hrun by done. simplify_eq. }
  rewrite (createLink_present _ _ _ _ _ Hurl) in Hrun. unfold createLink_attempt in Hrun.
  destruct (nanoid 10 (chosen_rng customCode w)) as [id g2].
  destruct (bool_decide_reflect (id ∈ link_id <$> links w)); simpl in Hrun;
    [simplify_eq|].
  destruct (bool_decide_reflect (chosen_code customCode w ∈ short_code <$> links w));
    simpl in Hrun; [simplify_eq|].
  destruct (foreign_keys && _); [by simplify_eq|].
  injection Hrun as _ <-. split; [done|]. by exists id.
Qed.

Lemma find_active_snoc code (ls later : list Link) link :
  (code ∉ short_code <$> ls) -> short_code link = code -> is_active link = 1 ->
  List.find (fun l => bool_decide (short_code l = code) &&
                      bool_decide (is_active l = 1)) (ls ++ link :: later) = Some link.
Proof.
  intros Hfresh Hcode Hact. induction ls as [|l ls IH]; simpl.
  - by rewrite !bool_decide_eq_true_2.
  - rewrite fmap_cons, not_elem_of_cons in Hfresh. destruct Hfresh as [Hne Hfresh].
    rewrite (bool_decide_eq_false_2 (short_code l = code)); [by apply IH | congruence].
Qed.

(** X9. A link that [createLink] has just stored resolves at once: on any
    later store whose [links] table extends the one the call left, a visit
    of the chosen short code, when the drawn click id is free, answers
    with a 302 redirect to the very URL that was submitted and adds one
    click. *)
Theorem X9_created_link_resolves owner url ttl customCode w body w1 :
  createLink owner (Some url) ttl customCode w = (Ok (ResJson 200 body), w1) ->
  forall headers w2 later,
    links w2 = links w1 ++ later ->
    (fst (nanoid 10 (rng w2)) ∉ click_id <$> clicks w2) ->
    exists w3,
      server (GetShortCode headers (chosen_code customCode w)) w2 =
        (ResRedirect 302 url, w3) /\
      length (clicks w3) = S (length (clicks w2)).
Proof.
  intros Hrun headers w2 later Hlater Hfresh.
  destruct (createLink_success_fresh _ _ _ _ _ _ _ Hrun) as (Hcode & id & _ & _ & _ & Hrows).
  rewrite Hrows, <- app_assoc in Hlater. simpl in Hlater.
  eexists. unfold server, respond. rewrite (resolveAndRedirect_found headers _
    (mkLink id owner url (chosen_code customCode w) (js_or_null ttl) 1
            (CURRENT_TIMESTAMP (clock w))) w2); [| |done].
  - split; [done|]. simpl. rewrite length_app. simpl. lia.
  - rewrite Hlater. by apply find_active_snoc.
Qed.

(** *** Visiting, then reading the analytics *)

Lemma resolveAndRedirect_inv headers code w st url w' :
  resolveAndRedirect headers code w = (Ok (ResRedirect st url), w') ->
  exists link,
    List.find (fun l => bool_decide (short_code l = code) &&
                        bool_decide (is_active l = 1)) (links w) = Some link /\
    st = 302%nat /\ url = original_url link /\
    users w' = users w /\ links w' = links w /\
    clicks w' = clicks w ++ [click_of_visit headers link w].
Proof.
  unfold resolveAndRedirect, select_active_link, bind, ret, draw_nanoid, click_of_visit.
  intros Hrun. destruct (List.find _ (links w)) as [link|]; [|by simplify_eq].
  exists link. split; [done|].
  destruct (nanoid 10 (rng w)) as [id g]. simpl in *.
  destruct (insert_click id (link_id link) _ _ _) as [o1 w1] eqn:Hins.
  apply insert_click_inv in Hins as [(-> & Hid & ->) | (-> & message & ->)];
    simpl in *; by simplify_eq.
Qed.

Lemma clicks_of_snoc id w w' c :
  clicks w' = clicks w ++ [c] ->
  clicks_of id w' = clicks_of id w ++ (if decide (click_link_id c = id) then [c] else []).
Proof.
  intros Hrows. unfold clicks_of. rewrite Hrows, filter_app. by f_equal.
Qed.

Lemma getAnalytics_depends_on id w w' :
  links w' = links w -> clicks_of id w' = clicks_of id w ->
  fst (server (GetAnalytics id) w') = fst (server (GetAnalytics id) w).
Proof.
  intros Hlinks Hclicks. unfold server, respond, getAnalytics, select_link_by_id,
    select_stats, select_daily, bind, ret, clicks_of in *. simpl.
  rewrite Hlinks. destruct (List.find _ (links w)); [|done]. simpl. by rewrite Hclicks.
Qed.

(** X10. A visit that was answered with a redirect is counted once, and
    for its own link only: the redirect went to the original URL of an
    active link with that code, the total click count of that link is one
    higher afterwards, and the analytics response of every other id is
    what it was before the visit. *)
Theorem X10_visit_is_counted_once headers code st url w w' :
  server (GetShortCode headers code) w = (ResRedirect st url, w') ->
  exists link,
    link ∈ links w /\ short_code link = code /\ is_active link = 1 /\
    url = original_url link /\
    total_clicks (clicks_of (link_id link) w') =
      S (total_clicks (clicks_of (link_id link) w)) /\
    forall id, id <> link_id link ->
      fst (server (GetAnalytics id) w') = fst (server (GetAnalytics id) w).
Proof.
  unfold server at 1, respond. intros Hrun.
  destruct (resolveAndRedirect headers code w) as [[r|e] w1] eqn:Hres; simplify_eq.
  apply resolveAndRedirect_inv in Hres
    as (link & Hfind & -> & -> & _ & Hlinks & Hclicks).
  destruct (find_active_elem _ _ _ Hfind) as (Hin & Hcode & Hact).
  exists link. repeat (split; [done|]). split.
  - rewrite (clicks_of_snoc _ w w' _ Hclicks). unfold total_clicks, click_of_visit. simpl.
    rewrite decide_True by done. rewrite length_app. simpl. lia.
  - intros id Hid. apply getAnalytics_depends_on; [done|].
    rewrite (clicks_of_snoc _ w w' _ Hclicks). unfold click_of_visit. simpl.
    rewrite decide_False by done. apply app_nil_r.
Qed.

(** *** The aggregates agree with each other *)

Lemma length_filter_key_cons {A} (key : A -> string) (d : string) (D : list string)
    (xs : list A) :
  (d ∉ D) ->
  length (filter (fun x => key x ∈ d :: D) xs) =
  (length (filter (fun x => key x = d) xs) + length (filter (fun x => key x ∈ D) xs))%nat.
Proof.
  intros Hd. induction xs as [|x xs IH]; [done|].
  rewrite !filter_cons.
  destruct (decide (key x = d)) as [Heq|Hne].
  - rewrite decide_True by (rewrite Heq; left).
    rewrite decide_False by (by rewrite Heq). simpl. by rewrite IH.
  - destruct (decide (key x ∈ D)) as [Hin|Hout].
    + rewrite decide_True by (by right). simpl. rewrite IH. lia.
    + rewrite decide_False by (rewrite not_elem_of_cons; done). done.
Qed.

Lemma sum_counts_by_key {A} (key : A -> string) (D : list string) (xs : list A) :
  NoDup D ->
  sum_list ((fun d => length (filter (fun x => key x = d) xs)) <$> D) =
  length (filter (fun x => key x ∈ D) xs).
Proof.
  induction D as [|d D IH]; intros Hnd.
  - simpl. induction xs as [|x xs IHxs]; [done|].
    rewrite filter_cons, decide_False by apply not_elem_of_nil. done.
  - apply NoDup_cons in Hnd as [Hd Hnd]. rewrite fmap_cons. simpl.
    rewrite (IH Hnd). by rewrite length_filter_key_cons.
Qed.

Lemma filter_all {A} (P : A -> Prop) `{forall x, Decision (P x)} (xs : list A) :
  (forall x, x ∈ xs -> P x) -> filter P xs = xs.
Proof.
  induction xs as [|x xs IH]; intros Hall; [done|].
  rewrite filter_cons, decide_True by (apply Hall; left).
  f_equal. apply IH. intros y Hy. apply Hall. by right.
Qed.

Lemma sum_group_by_date cs : sum_list ((group_by_date cs).*2) = length cs.
Proof.
  unfold group_by_date. rewrite <- list_fmap_compose.
  etrans; [apply (sum_counts_by_key (fun c => DATE (click_created_at c))
                    (remove_dups (click_dates cs)) cs), NoDup_remove_dups|].
  f_equal. apply filter_all. intros c Hc.
  rewrite elem_of_remove_dups. unfold click_dates.
  by apply (list_elem_of_fmap_2 (fun c => DATE (click_created_at c))).
Qed.


(** X11. The figures of [getAnalytics] are consistent with each other for
    every link id: the number of active days is at most the number of
    clicks; the per-day counts of [daily] add up to at most the number of
    clicks, and to exactly that number, with every date of a click listed,
    when the link has clicks on at most 7 dates; and a link without clicks
    has 0 clicks, 0 active days and an empty [daily]. *)
Theorem X11_analytics_figures_are_consistent id w :
  (active_days (clicks_of id w) <= total_clicks (clicks_of id w))%nat /\
  (sum_list (daily_clicks (clicks_of id w)).*2 <= total_clicks (clicks_of id w))%nat /\
  ((active_days (clicks_of id w) <= 7)%nat ->
   sum_list (daily_clicks (clicks_of id w)).*2 = total_clicks (clicks_of id w) /\
   forall d, d ∈ click_dates (clicks_of id w) -> d ∈ (daily_clicks (clicks_of id w)).*1) /\
  (clicks_of id w = [] ->
   total_clicks (clicks_of id w) = 0%nat /\ active_days (clicks_of id w) = 0%nat /\
   daily_clicks (clicks_of id w) = []).
Proof.
  generalize (clicks_of id w). intros cs. unfold total_clicks.
  assert (Hperm : merge_sort date_desc (group_by_date cs) ≡ₚ group_by_date cs)
    by apply merge_sort_Permutation.
  assert (Hsum : sum_list (merge_sort date_desc (group_by_date cs)).*2 = length cs)
    by (rewrite Hperm; apply sum_group_by_date).
  split; [|split; [|split]].
  - unfold active_days. rewrite <- (length_fmap (fun c => DATE (click_created_at c)) cs).
    apply submseteq_length, NoDup_submseteq; [apply NoDup_remove_dups|].
    intros d. by rewrite elem_of_remove_dups.
  - unfold daily_clicks. rewrite <- Hsum.
    rewrite <- (take_drop 7 (merge_sort date_desc (group_by_date cs))) at 2.
    rewrite fmap_app, sum_list_with_app. lia.
  - intros Hdays. unfold daily_clicks. rewrite take_ge.
    + split; [done|]. intros d Hd. rewrite Hperm, group_by_date_dates.
      by rewrite elem_of_remove_dups.
    + rewrite Hperm. unfold group_by_date. by rewrite length_fmap.
  - by intros ->.
Qed.

(** *** What one request does to the tables *)

(** The effect of a handler on the three tables: nothing, or one row at
    the end of one table.  A new link belongs to an existing user when
    foreign keys are enforced, and a new click to an existing link. *)
Definition step (w w' : World) : Prop :=
  (users w' = users w /\ links w' = links w /\ clicks w' = clicks w) \/
  (links w' = links w /\ clicks w' = clicks w /\ exists u, users w' = users w ++ [u]) \/
  (users w' = users w /\ clicks w' = clicks w /\
   exists l, links w' = links w ++ [l] /\
             (foreign_keys = true -> link_user_id l ∈ user_id <$> users w)) \/
  (users w' = users w /\ links w' = links w /\
   exists c, clicks w' = clicks w ++ [c] /\ click_link_id c ∈ link_id <$> links w).

Lemma step_refl w : step w w.
Proof. by left. Qed.

Lemma register_step email password w o w' :
  register email password w = (o, w') -> step w w'.
Proof.
  unfold register, try_catch, bind, ret, draw_nanoid, hash_password, sign_token.
  intros Hrun.
  destruct (js_not email || js_not password); [simplify_eq; apply step_refl|].
  destruct (String.length (str password) <? 6)%nat; [simplify_eq; apply step_refl|].
  destruct (nanoid 10 (rng w)) as [id g1]. simpl in Hrun.
  destruct (bcrypt_hash (str password) g1) as [h g2]. simpl in Hrun.
  destruct (insert_user id (str email) h _) as [o1 w1] eqn:Hins.
  apply insert_user_inv in Hins as [(-> & Hid & Hemail & ->) | (-> & column & ->)];
    simpl in *; simplify_eq.
  - right. left. simpl. eauto.
  - by left.
Qed.

Lemma insert_link_owner id owner url code ttl w w' :
  insert_link id owner url code ttl w = (Ok tt, w') ->
  foreign_keys = true -> owner ∈ user_id <$> users w.
Proof.
  unfold insert_link. intros Hrun Hfk. rewrite Hfk in Hrun.
  repeat case_bool_decide; simpl in Hrun; by simplify_eq.
Qed.

Lemma createLink_step owner originalUrl ttl customCode w o w' :
  createLink owner originalUrl ttl customCode w = (o, w') -> step w w'.
Proof.
  unfold createLink, try_catch, bind, ret, draw_nanoid.
  intros Hrun.
  destruct (js_not originalUrl); [simplify_eq; apply step_refl|].
  destruct (truthy customCode); simpl in Hrun;
    [| destruct (nanoid 6 (rng w)) as [code g1]; simpl in Hrun ].
  all: match type of Hrun with
       | context [nanoid 10 ?g] => destruct (nanoid 10 g) as [id g2]
       end; simpl in Hrun.
  all: match type of Hrun with
       | context [insert_link ?a ?b ?c ?d ?e ?f] =>
           destruct (insert_link a b c d e f) as [o1 w1] eqn:Hins
       end.
  all: pose proof Hins as Hins';
       apply insert_link_inv in Hins
         as [(-> & Hid & Hcode & ->) | [(-> & _ & ->) | (-> & column & ->)]];
       simpl in *; simplify_eq; try (by left).
  all: right; right; left; simpl; split; [done|]; split; [done|];
       eexists; split; [done|]; simpl; intros Hfk;
       by apply (insert_link_owner _ _ _ _ _ _ _ Hins').
Qed.

Lemma resolveAndRedirect_step headers code w o w' :
  resolveAndRedirect headers code w = (o, w') -> step w w'.
Proof.
  unfold resolveAndRedirect, select_active_link, bind, ret, draw_nanoid.
  intros Hrun. destruct (List.find _ (links w)) as [link|] eqn:Hfind;
    [|simplify_eq; apply step_refl].
  apply find_active_elem in Hfind as (Hin & _ & _).
  destruct (nanoid 10 (rng w)) as [id g]. simpl in Hrun.
  destruct (insert_click id (link_id link) _ _ _) as [o1 w1] eqn:Hins.
  apply insert_click_inv in Hins as [(-> & Hid & ->) | (-> & message & ->)];
    simpl in *; simplify_eq; [|by left].
  right. right. right. simpl. split; [done|]. split; [done|].
  eexists. split; [done|]. simpl. by apply list_elem_of_fmap_2.
Qed.

Lemma authenticateToken_step headers next w o w' :
  (forall user w o w', next user w = (o, w') -> step w w') ->
  authenticateToken headers next w = (o, w') -> step w w'.
Proof.
  unfold authenticateToken, ret. intros Hnext Hrun.
  destruct (js_not _); [simplify_eq; apply step_refl|].
  destruct (jwt_verify _ _) as [user|]; [by eapply Hnext | simplify_eq; apply step_refl].
Qed.

Lemma readers_leave_the_store (h : M Response) w :
  h = health \/ (exists e p, h = login e p) \/ (exists owner, h = listLinks owner) \/
  (exists id, h = getAnalytics id) ->
  snd (h w) = w.
Proof.
  intros [-> | [(e & p & ->) | [(owner & ->) | (id & ->)]]]; unfold_handlers;
    repeat case_match; by simplify_eq.
Qed.

Lemma respond_step (h : M Response) w :
  (forall o w', h w = (o, w') -> step w w') -> step w (snd (respond h w)).
Proof.
  intros Hh. unfold respond. destruct (h w) as [[r|e] w'] eqn:Hrun; simpl; by eapply Hh.
Qed.

Lemma requests_step req w :
  step w (snd (server req w)) /\ step w (snd (part_000 req w)).
Proof.
  split; destruct req; unfold server, part_000; simpl; try apply step_refl;
    apply respond_step; intros o w';
    try (apply authenticateToken_step; intros user w1 o1 w1');
    first [ apply register_step
          | apply createLink_step
          | apply resolveAndRedirect_step
          | intros Hrun;
            match type of Hrun with
            | ?h ?w0 = _ =>
                assert (Hw : snd (h w0) = w0) by (apply readers_leave_the_store; eauto 10)
            end;
            rewrite Hrun in Hw; simpl in Hw; subst; apply step_refl ].
Qed.


(** *** The stores the application can reach *)

(** A store the application can be in: it starts with empty tables, serves
    requests of either revision, and between requests the generator and
    the clock move on by themselves. *)
Inductive reachable : World -> Prop :=
| reachable_empty g t : reachable (mkWorld [] [] [] g t)
| reachable_server req w : reachable w -> reachable (snd (server req w))
| reachable_part_000 req w : reachable w -> reachable (snd (part_000 req w))
| reachable_environment g t w :
    reachable w -> reachable (mkWorld (users w) (links w) (clicks w) g t).

(** Every click belongs to a stored link and, when foreign keys are
    enforced, every link to a stored user. *)
Definition references_ok (w : World) : Prop :=
  (forall c, c ∈ clicks w -> click_link_id c ∈ link_id <$> links w) /\
  (foreign_keys = true ->
   forall l, l ∈ links w -> link_user_id l ∈ user_id <$> users w).

Lemma step_preserves_references w w' : step w w' -> references_ok w -> references_ok w'.
Proof.
  intros Hstep [Hclicks Hlinks].
  destruct Hstep as [(Hu & Hl & Hc) | [(Hl & Hc & u & Hu) | [(Hu & Hc & l & Hl & Howner)
                    | (Hu & Hl & c & Hc & Hlink)]]]; split.
  - rewrite Hc, Hl. done.
  - rewrite Hl, Hu. done.
  - rewrite Hc, Hl. done.
  - intros Hfk l Hin. rewrite Hl in Hin. rewrite Hu, fmap_app, elem_of_app.
    left. by apply Hlinks.
  - intros c Hin. rewrite Hc in Hin. rewrite Hl, fmap_app, elem_of_app.
    left. by apply Hclicks.
  - intros Hfk l' Hin. rewrite Hl, elem_of_app in Hin. rewrite Hu.
    destruct Hin as [Hin | ->%list_elem_of_singleton]; [by apply Hlinks | by apply Howner].
  - intros c' Hin. rewrite Hc, elem_of_app in Hin. rewrite Hl.
    destruct Hin as [Hin | ->%list_elem_of_singleton]; [by apply Hclicks | done].
  - rewrite Hl, Hu. done.
Qed.

(** X12. On every store the application can reach from empty tables, by
    requests to [server.js] and [part_000] in any order, the primary keys
    of the three tables and the [UNIQUE] columns [email] and [short_code]
    hold no duplicates: no handler ever stores a second row with a taken
    id, email or short code. *)
Theorem X12_reachable_stores_keep_keys_unique w :
  reachable w -> store_ok w.
Proof.
  induction 1 as [g t | req w _ IH | req w _ IH | g t w _ IH].
  - repeat split; apply NoDup_nil_2.
  - by apply (requests_preserve_store_ok req w).
  - by apply (requests_preserve_store_ok req w).
  - exact IH.
Qed.

(** X13. On every store the application can reach from empty tables, every
    row of [clicks] carries the id of a row of [links], whether or not
    foreign keys are enforced, since a click is only inserted for a link
    that was just found; and when foreign keys are enforced every row of
    [links] carries the id of a row of [users]. *)
Theorem X13_reachable_stores_keep_references w :
  reachable w -> references_ok w.
Proof.
  induction 1 as [g t | req w _ IH | req w _ IH | g t w _ IH].
  - split; [by intros c ?%elem_of_nil | by intros _ l ?%elem_of_nil].
  - exact (step_preserves_references _ _ (proj1 (requests_step req w)) IH).
  - exact (step_preserves_references _ _ (proj2 (requests_step req w)) IH).
  - exact IH.
Qed.

(** A table after a request: as before, or with one more row at its end. *)
Definition grows_by_at_most_one {A} (l l' : list A) : Prop :=
  l' = l \/ exists x, l' = l ++ [x].

(** X14. No request of either revision deletes or alters a stored row:
    afterwards each table is what it was or has one more row at its end,
    and at most one row is added over the three tables.  [GET /api/health],
    [POST /api/auth/login], [GET /api/links] and
    [GET /api/links/:id/analytics] leave the whole store, generator
    included, as it was. *)
Theorem X14_requests_only_append req w w' :
  w' = snd (server req w) \/ w' = snd (part_000 req w) ->
  grows_by_at_most_one (users w) (users w') /\
  grows_by_at_most_one (links w) (links w') /\
  grows_by_at_most_one (clicks w) (clicks w') /\
  (length (users w') + length (links w') + length (clicks w') <=
   S (length (users w) + length (links w) + length (clicks w)))%nat /\
  match req with
  | GetHealth | PostLogin _ _ | GetLinks _ | GetAnalytics _ => w' = w
  | _ => True
  end.
Proof.
  intros Hw'.
  assert (Hstep : step w w').
  { destruct Hw' as [-> | ->]; apply requests_step. }
  split; [|split; [|split; [|split]]].
  - destruct Hstep as [(-> & _) | [(_ & _ & u & ->) | [(-> & _) | (-> & _)]]];
      first [by left | right; eauto].
  - destruct Hstep as [(_ & -> & _) | [(-> & _) | [(_ & _ & l & -> & _) | (_ & -> & _)]]];
      first [by left | right; eauto].
  - destruct Hstep as [(_ & _ & ->) | [(_ & -> & _) | [(_ & -> & _) | (_ & _ & c & -> & _)]]];
      first [by left | right; eauto].
  - destruct Hstep as [(-> & -> & ->) | [(-> & -> & u & ->) | [(-> & -> & l & -> & _)
                      | (-> & -> & c & -> & _)]]];
      rewrite ?length_app; simpl; lia.
  - destruct req; try done; destruct Hw' as [-> | ->];
      unfold_handlers; repeat case_match; by simplify_eq.
Qed.

(** *** Creating, then listing *)

(** X16. A link created through [POST /api/links] of [server.js] shows up
    in its owner's list: after a 200, on any later store whose [links]
    table extends the one the call left and on which the same token still
    verifies as the same user, [GET /api/links] lists a row with the chosen
    short code, the submitted URL, the user's id as owner and
    [is_active = 1]. *)
Theorem X16_created_link_is_listed headers token user url ttl customCode w body w1 :
  token_of (authorization headers) = Some token -> token <> "" ->
  jwt_verify token (clock w) = Some user ->
  server (PostLinks headers (Some url) ttl customCode) w = (ResJson 200 body, w1) ->
  forall w2 later,
    links w2 = links w1 ++ later ->
    jwt_verify token (clock w2) = Some user ->
    exists rows link,
      server (GetLinks headers) w2 =
        (ResJson 200 (success_body (JArr ((fun l => JObj (link_fields l)) <$> rows))), w2) /\
      link ∈ rows /\
      short_code link = chosen_code customCode w /\ original_url link = url /\
      link_user_id link = payload_id user /\ is_active link = 1.
Proof.
  intros Htok Hne Hverify Hrun w2 later Hlater Hverify2.
  rewrite (proj1 (routes_run_createLink headers (Some url) ttl customCode token user w
                    Htok Hne Hverify)) in Hrun.
  unfold respond in Hrun.
  destruct (createLink (payload_id user) (Some url) ttl customCode w)
    as [[r|e] w1'] eqn:Hcreate; simplify_eq.
  destruct (createLink_success_fresh _ _ _ _ _ _ _ Hcreate) as (_ & id & _ & _ & _ & Hrows).
  destruct (listLinks_rows (payload_id user) w2) as (rows & Hlist & _ & _ & Hmem).
  exists rows, (mkLink id (payload_id user) url (chosen_code customCode w) (js_or_null ttl) 1
                       (CURRENT_TIMESTAMP (clock w))).
  split.
  - unfold server, respond. rewrite (authenticateToken_with _ _ _ _ Htok).
    unfold authenticate_with. rewrite (bool_decide_eq_false_2 _ Hne), Hverify2.
    by rewrite Hlist.
  - split; [|done]. apply Hmem. split; [|done].
    rewrite Hlater, Hrows, !elem_of_app. left. right. by apply list_elem_of_singleton.
Qed.

(** *** Registering, then registering again *)

(** X17. A registration answered with 200 stored exactly one user row: the
    drawn id, the submitted email, the hash [bcrypt.hash] returned for the
    password, and the current timestamp, with [links] and [clicks]
    untouched.  From then on the email is taken: on any later store whose
    [users] table extends that one, a registration of the same email with
    any valid password is answered 400 "Email already registered" and
    stores nothing. *)
Theorem X17_registered_email_is_taken e p w body w1 :
  server (PostRegister (Some e) (Some p)) w = (ResJson 200 body, w1) ->
  users w1 = users w ++
    [mkUser (fst (nanoid 10 (rng w))) e
            (fst (bcrypt_hash p (snd (nanoid 10 (rng w)))))
            (CURRENT_TIMESTAMP (clock w))] /\
  links w1 = links w /\ clicks w1 = clicks w /\
  forall p' w2 later,
    users w2 = users w1 ++ later -> (6 <= String.length p')%nat ->
    exists w3,
      server (PostRegister (Some e) (Some p')) w2 =
        (ResJson 400 (error_body "Email already registered"), w3) /\
      users w3 = users w2 /\ links w3 = links w2 /\ clicks w3 = clicks w2.
Proof.
  intros Hrun.
  assert (He : e <> "").
  { intros ->. unfold server, respond, register in Hrun. simpl in Hrun. simplify_eq. }
  assert (Hp : (6 <= String.length p)%nat).
  { destruct (Nat.lt_ge_cases (String.length p) 6) as [Hlt|Hge]; [|done].
    destruct (register_invalid (Some e) (Some p) w) as [message Hbad]; [eauto|].
    unfold server, respond in Hrun. rewrite Hbad in Hrun. simplify_eq. }
  unfold server, respond in Hrun. rewrite (register_valid e p w He Hp) in Hrun.
  unfold register_attempt in Hrun.
  destruct (nanoid 10 (rng w)) as [id g1]. simpl.
  destruct (bcrypt_hash p g1) as [h g2]. simpl.
  destruct (_ || _); simplify_eq. simpl.
  split; [done|]. split; [done|]. split; [done|].
  intros p' w2 later Hlater Hp'. simpl in Hlater.
  unfold server, respond. rewrite (register_valid e p' w2 He Hp'). unfold register_attempt.
  destruct (nanoid 10 (rng w2)) as [id' g1']. destruct (bcrypt_hash p' g1') as [h' g2'].
  rewrite (bool_decide_eq_true_2 (e ∈ user_email <$> users w2)), orb_true_r.
  - eexists. split; [reflexivity|]. done.
  - rewrite Hlater, !fmap_app, !elem_of_app. left. right. simpl.
    by apply list_elem_of_singleton.
Qed.


(** *** Registering, then using the token *)

(** X18. The token of a successful registration, sent as
    ["Bearer " + token], opens the protected routes as the user that was
    just stored: provided the token holds no space and [jwt.verify] still
    accepts it with its payload, [GET /api/links] answers 200 with exactly
    the links whose [user_id] is the id of the new [users] row. *)
Theorem X18_registration_token_authenticates e p w body w1 :
  server (PostRegister (Some e) (Some p)) w = (ResJson 200 body, w1) ->
  exists id token,
    body = success_body (JObj [("user", user_json id e); ("token", JStr token)]) /\
    token = jwt_sign (mkPayload id e) (clock w) /\
    id ∈ user_id <$> users w1 /\
    forall agent ref w2,
      occurs space token = false -> token <> "" ->
      jwt_verify token (clock w2) = Some (mkPayload id e) ->
      exists rows,
        server (GetLinks (mkHeaders (Some ("Bearer " +:+ token)) agent ref)) w2 =
          (ResJson 200 (success_body (JArr ((fun l => JObj (link_fields l)) <$> rows))),
           w2) /\
        forall l, l ∈ rows <-> l ∈ links w2 /\ link_user_id l = id.
Proof.
  intros Hrun.
  assert (He : e <> "").
  { intros ->. unfold server, respond, register in Hrun. simpl in Hrun. simplify_eq. }
  assert (Hp : (6 <= String.length p)%nat).
  { destruct (Nat.lt_ge_cases (String.length p) 6) as [Hlt|Hge]; [|done].
    destruct (register_invalid (Some e) (Some p) w) as [message Hbad]; [eauto|].
    unfold server, respond in Hrun. rewrite Hbad in Hrun. simplify_eq. }
  unfold server at 1, respond in Hrun. rewrite (register_valid e p w He Hp) in Hrun.
  unfold register_attempt in Hrun.
  destruct (nanoid 10 (rng w)) as [id g1]. destruct (bcrypt_hash p g1) as [h g2].
  destruct (_ || _); simplify_eq.
  exists id, (jwt_sign (mkPayload id e) (clock w)).
  split; [done|]. split; [done|]. split.
  { simpl. rewrite fmap_app, elem_of_app. right. by apply list_elem_of_singleton. }
  intros agent ref w2 Hspace Hne Hverify.
  destruct (listLinks_rows id w2) as (rows & Hlist & _ & _ & Hmem).
  exists rows. split; [|exact Hmem].
  unfold server, respond.
  rewrite (authenticateToken_with _ (jwt_sign (mkPayload id e) (clock w))).
  - unfold authenticate_with. rewrite (bool_decide_eq_false_2 _ Hne), Hverify.
    cbn [payload_id]. by rewrite Hlist.
  - simpl. by apply (token_of_second_word "Bearer").
Qed.

(** *** Creating, then creating again *)

(** X19. A short code that [createLink] has stored is taken from then on:
    after a 200, on any later store whose [links] table extends the one
    the call left, a call by anyone that supplies that code as its
    [customCode] is answered 400 "Short code already exists" and stores
    nothing. *)
Theorem X19_created_code_is_taken owner url ttl customCode w body w1 :
  createLink owner (Some url) ttl customCode w = (Ok (ResJson 200 body), w1) ->
  chosen_code customCode w <> "" ->
  forall owner' url' ttl' w2 later,
    links w2 = links w1 ++ later -> url' <> "" ->
    exists w3,
      createLink owner' (Some url') ttl' (Some (chosen_code customCode w)) w2 =
        (Ok (ResJson 400 (error_body "Short code already exists")), w3) /\
      users w3 = users w2 /\ links w3 = links w2 /\ clicks w3 = clicks w2.
Proof.
  intros Hrun Hcode owner' url' ttl' w2 later Hlater Hurl'.
  destruct (createLink_success_fresh _ _ _ _ _ _ _ Hrun) as (_ & id & _ & _ & _ & Hrows).
  rewrite (createLink_present _ _ _ _ _ Hurl'). unfold createLink_attempt.
  destruct (nanoid 10 _) as [id' g2].
  assert (Hchosen : chosen_code (Some (chosen_code customCode w)) w2 =
                    chosen_code customCode w).
  { unfold chosen_code at 1. by rewrite truthy_Some. }
  rewrite Hchosen.
  rewrite (bool_decide_eq_true_2 (chosen_code customCode w ∈ short_code <$> links w2)),
    orb_true_r.
  - eexists. split; [reflexivity|]. done.
  - rewrite Hlater, Hrows, !fmap_app, !elem_of_app. left. right. simpl.
    by apply list_elem_of_singleton.
Qed.

End Coverage.

(** *** Further runs of the example store *)

Definition alice_token : string := Demo.sign (mkPayload "u000000001" "a@x.com").

Definition alice_headers : Headers :=
  mkHeaders (Some ("Bearer " +:+ alice_token)) (Some "curl/8.5") (Some "").

Definition page : string := "https://example.com/page".

(** A store in which the id the generator draws next is already the
    primary key of a link, and one in which it is that of a user. *)
Definition taken_link_id : World :=
  @mkWorld Demo.platform [Demo.alice]
          [mkLink (Demo.draw 10 0) "u000000001" "https://example.net" "net001" None 1
                  "2026-02-05 09:45:00"]
          [] 0%nat Demo.noon.

Definition taken_user_id : World :=
  @mkWorld Demo.platform [mkUser (Demo.draw 10 0) "early@x.com" "uearly-pass" "2026-02-04 07:00:00"]
          [] [] 0%nat Demo.noon.

Lemma demo_register_b :
  server (PostRegister (Some "b@x.com") (Some "secret1")) Demo.world =
    (ResJson 200 (success_body
       (JObj [("user", user_json "useandom-2" "b@x.com");
              ("token", JStr "1111111111.useandom-2b@x.com")])),
     snd (server (PostRegister (Some "b@x.com") (Some "secret1")) Demo.world)).
Proof. vm_compute. reflexivity. Qed.

Lemma demo_createLink_promo :
  exists body,
    createLink "u000000001" (Some page) None (Some "promo1") Demo.world =
      (Ok (ResJson 200 body),
       snd (createLink "u000000001" (Some page) None (Some "promo1") Demo.world)).
Proof. eexists. vm_compute. reflexivity. Qed.

Lemma demo_post_links_promo :
  exists body,
    server (PostLinks alice_headers (Some page) None (Some "promo1")) Demo.world =
      (ResJson 200 body,
       snd (server (PostLinks alice_headers (Some page) None (Some "promo1")) Demo.world)).
Proof. eexists. vm_compute. reflexivity. Qed.

Lemma demo_visit_abc123 :
  exists w',
    server (GetShortCode alice_headers "abc123") Demo.world =
      (ResRedirect 302 "https://example.com", w').
Proof. eexists. vm_compute. reflexivity. Qed.

Lemma X1_witness :
  ("z@x.com" ∉ user_email <$> users Demo.world) /\
  server (PostLogin (Some "z@x.com") (Some "secret1")) Demo.world =
    (ResJson 401 (error_body "Invalid credentials"), Demo.world) /\
  server (PostLogin (Some "a@x.com") (Some "wrong1")) Demo.world =
    (ResJson 401 (error_body "Invalid credentials"), Demo.world) /\
  server (PostLogin None (Some "secret1")) Demo.world =
    (ResJson 400 (error_body "Email and password are required"), Demo.world).
Proof.
  assert (Hout : "z@x.com" ∉ user_email <$> users Demo.world) by (simpl; listed).
  destruct (X1_login_outcomes (Some "z@x.com") (Some "secret1") Demo.world) as [_ Hz].
  destruct (Hz "z@x.com" "secret1" eq_refl eq_refl) as [Hunknown _]; [done | done |].
  destruct (X1_login_outcomes (Some "a@x.com") (Some "wrong1") Demo.world) as [_ Ha].
  destruct (Ha "a@x.com" "wrong1" eq_refl eq_refl) as [_ Hwrong]; [done | done |].
  destruct (X1_login_outcomes None (Some "secret1") Demo.world) as [Hmissing _].
  split; [exact Hout|]. split; [exact (Hunknown Hout)|].
  split; [exact (Hwrong Demo.alice eq_refl)|]. apply Hmissing. by left.
Defined.

Lemma X2_witness :
  js_not (token_of (authorization Demo.no_headers)) = true /\
  server (PostLinks Demo.no_headers (Some page) None None) Demo.world =
    (ResJson 401 (error_body "Access token required"), Demo.world) /\
  server (GetLinks (mkHeaders (Some "Bearer not-a-token") None None)) Demo.world =
    (ResJson 403 (error_body "Invalid or expired token"), Demo.world).
Proof.
  destruct (X2_protected_routes_need_a_token Demo.no_headers (Some page) None None
              Demo.world) as (Hmissing & _ & _).
  destruct (X2_protected_routes_need_a_token
              (mkHeaders (Some "Bearer not-a-token") None None) (Some page) None None
              Demo.world) as (_ & Hrefused & _).
  split; [reflexivity|]. split; [exact (proj1 (Hmissing eq_refl))|].
  exact (proj2 (Hrefused eq_refl eq_refl)).
Defined.

Lemma X3_witness :
  token_of (authorization alice_headers) = Some alice_token /\
  jwt_verify alice_token (clock Demo.world) = Some (mkPayload "u000000001" "a@x.com") /\
  exists rows,
    server (GetLinks alice_headers) Demo.world =
      (ResJson 200 (success_body (JArr ((fun l => JObj (link_fields l)) <$> rows))),
       Demo.world) /\
    forall l, l ∈ rows <-> l ∈ links Demo.world /\ link_user_id l = "u000000001".
Proof.
  split; [reflexivity|]. split; [reflexivity|].
  destruct (X3_listLinks_is_owner_scoped alice_headers alice_token
              (mkPayload "u000000001" "a@x.com") Demo.world eq_refl)
    as [(rows & Hrun & _ & _ & Hmem) _]; [done | reflexivity |].
  by exists rows.
Defined.

Lemma X4_witness :
  part_000 (PostLinks Demo.no_headers (Some "") (Some "Empty") (Some "promo1")) Demo.world =
    (ResJson 400 (error_body "originalUrl is required"), Demo.world) /\
  server (PostLinks alice_headers None None None) Demo.world =
    (ResJson 400 (error_body "originalUrl is required"), Demo.world).
Proof.
  split.
  - apply (X4_createLink_requires_originalUrl Demo.no_headers (Some "") (Some "Empty")
             (Some "promo1") "" (mkPayload "" "") Demo.world). by right.
  - apply (X4_createLink_requires_originalUrl alice_headers None None None alice_token
             (mkPayload "u000000001" "a@x.com") Demo.world);
      [by left | reflexivity | done | reflexivity].
Defined.

Lemma X5_witness :
  ("promo1" ∉ short_code <$> links taken_link_id) /\
  exists w',
    createLink "u000000001" (Some page) None (Some "promo1") taken_link_id =
      (Ok (ResJson 400 (error_body "Short code already exists")), w') /\
    links w' = links taken_link_id.
Proof.
  split; [simpl; listed|].
  destruct (X5_createLink_id_collision "u000000001" page None (Some "promo1") taken_link_id)
    as (w' & Hrun & _ & Hlinks & _); [done | simpl; listed |].
  by exists w'.
Defined.

Lemma X6_witness :
  ("b@x.com" ∉ user_email <$> users taken_user_id) /\
  exists w',
    server (PostRegister (Some "b@x.com") (Some "secret1")) taken_user_id =
      (ResJson 400 (error_body "Email already registered"), w') /\
    users w' = users taken_user_id.
Proof.
  split; [simpl; listed|].
  destruct (X6_register_id_collision "b@x.com" "secret1" taken_user_id)
    as (w' & Hrun & Husers & _); [done | simpl; lia | simpl; listed |].
  by exists w'.
Defined.

Lemma X7_witness :
  @foreign_keys Demo.platform = true /\
  exists w',
    part_000 (PostLinks Demo.no_headers (Some page) None None) Demo.fresh =
      (ResJson 500 (error_body "FOREIGN KEY constraint failed"), w') /\
    links w' = links Demo.fresh.
Proof.
  split; [reflexivity|].
  destruct (X7_createLink_unknown_owner "demo-user" page None None Demo.fresh)
    as (w' & Hrun & _ & Hlinks & _);
    [reflexivity | done | simpl; listed | simpl; listed | simpl; listed |].
  exists w'. unfold part_000, respond. by rewrite Hrun.
Defined.

Lemma X8_witness :
  NoDup (short_code <$> links Demo.world) /\
  exists w',
    server (GetShortCode alice_headers "abc123") Demo.world =
      (ResRedirect 302 "https://example.com", w') /\
    clicks w' = clicks Demo.world ++
      [mkClick "useandom-2" "L000000001" (Some "curl/8.5") None None "2026-02-06 12:00:00"].
Proof.
  assert (Hcodes : NoDup (short_code <$> links Demo.world))
    by (simpl; repeat (apply NoDup_cons; split; [listed|]); apply NoDup_nil_2).
  split; [exact Hcodes|].
  destruct (X8_visit_redirects_and_records_one_click alice_headers Demo.example_link
              Demo.world Hcodes)
    as (w' & Hrun & _ & _ & _ & Hclicks); [simpl; listed | done | simpl; listed |].
  by exists w'.
Defined.

Lemma X9_witness :
  exists body w1 w3,
    createLink "u000000001" (Some page) None (Some "promo1") Demo.world =
      (Ok (ResJson 200 body), w1) /\
    server (GetShortCode Demo.no_headers "promo1") w1 = (ResRedirect 302 page, w3).
Proof.
  destruct demo_createLink_promo as (body & Hrun).
  destruct (X9_created_link_resolves _ _ _ _ _ _ _ Hrun Demo.no_headers
              (snd (createLink "u000000001" (Some page) None (Some "promo1") Demo.world))
              [] (eq_sym (app_nil_r _)))
    as (w3 & Hvisit & _); [simpl; listed|].
  by eexists _, _, w3.
Defined.

Lemma X10_witness :
  exists w' link,
    server (GetShortCode alice_headers "abc123") Demo.world =
      (ResRedirect 302 "https://example.com", w') /\
    short_code link = "abc123" /\
    total_clicks (clicks_of (link_id link) w') =
      S (total_clicks (clicks_of (link_id link) Demo.world)).
Proof.
  destruct demo_visit_abc123 as (w' & Hrun).
  destruct (X10_visit_is_counted_once _ _ _ _ _ _ Hrun)
    as (link & _ & Hcode & _ & _ & Hcount & _).
  by exists w', link.
Defined.

Lemma X11_witness :
  (active_days (clicks_of "L000000002" Demo.world) <= 7)%nat /\
  sum_list (daily_clicks (clicks_of "L000000002" Demo.world)).*2 =
    total_clicks (clicks_of "L000000002" Demo.world) /\
  clicks_of "L000000009" Demo.world = [] /\
  daily_clicks (clicks_of "L000000009" Demo.world) = [].
Proof.
  assert (Hdays : (active_days (clicks_of "L000000002" Demo.world) <= 7)%nat)
    by (vm_compute; lia).
  destruct (X11_analytics_figures_are_consistent "L000000002" Demo.world)
    as (_ & _ & Hfew & _).
  destruct (X11_analytics_figures_are_consistent "L000000009" Demo.world)
    as (_ & _ & _ & Hnone).
  split; [exact Hdays|]. split; [exact (proj1 (Hfew Hdays))|].
  split; [reflexivity|]. exact (proj2 (proj2 (Hnone eq_refl))).
Defined.

(** A session on the empty store: two registrations, a link created by
    each of the two users with their own token, and three visits, the
    second through [part_000]; the generator and the clock move on before
    the last one. *)
Definition first_token : string := "1111111111.useandom-2a@x.com".
Definition second_token : string := "1111111111.T198340PX7b@x.com".

Definition bearer (token : string) : Headers :=
  mkHeaders (Some ("Bearer " +:+ token)) None None.

Definition session_registered : World :=
  snd (server (PostRegister (Some "b@x.com") (Some "secret2"))
         (snd (server (PostRegister (Some "a@x.com") (Some "secret1")) Demo.fresh))).

Definition session_linked : World :=
  snd (server (PostLinks (bearer second_token) (Some "https://example.org") None
                 (Some "promo2"))
         (snd (server (PostLinks (bearer first_token) (Some page) None (Some "promo1"))
                 session_registered))).

Definition session_visited : World :=
  snd (part_000 (GetShortCode Demo.no_headers "promo2")
         (snd (server (GetShortCode alice_headers "promo1") session_linked))).

Definition session_store : World :=
  snd (server (GetShortCode Demo.no_headers "promo1")
         (@mkWorld Demo.platform (users session_visited) (links session_visited)
                   (clicks session_visited) 1000%nat
                   ("2026-02-07 08:15:00", "2026-02-07T08:15:00.000Z"))).

Lemma session_store_reachable : reachable session_store.
Proof.
  unfold session_store, session_visited, session_linked, session_registered.
  apply reachable_server, reachable_environment.
  apply reachable_part_000. do 5 apply reachable_server.
  apply (@reachable_empty Demo.platform 0%nat Demo.noon).
Qed.

(** What the session left: two users, two links, three clicks. *)
Lemma session_store_tables :
  user_id <$> users session_store = ["useandom-2"; "T198340PX7"] /\
  user_email <$> users session_store = ["a@x.com"; "b@x.com"] /\
  link_id <$> links session_store = ["pxJACKVERY"; "MINDBUSHWO"] /\
  link_user_id <$> links session_store = ["useandom-2"; "T198340PX7"] /\
  short_code <$> links session_store = ["promo1"; "promo2"] /\
  click_id <$> clicks session_store = ["LF_GQZbfgh"; "jklqvwyzri"; "WOLF_GQZbf"] /\
  click_link_id <$> clicks session_store = ["pxJACKVERY"; "MINDBUSHWO"; "pxJACKVERY"].
Proof. vm_compute. done. Qed.

Lemma X12_witness :
  reachable session_store /\
  length (users session_store) = 2%nat /\ length (links session_store) = 2%nat /\
  length (clicks session_store) = 3%nat /\
  store_ok session_store /\
  NoDup ["useandom-2"; "T198340PX7"] /\ NoDup ["a@x.com"; "b@x.com"] /\
  NoDup ["pxJACKVERY"; "MINDBUSHWO"] /\ NoDup ["promo1"; "promo2"] /\
  NoDup ["LF_GQZbfgh"; "jklqvwyzri"; "WOLF_GQZbf"].
Proof.
  pose proof (X12_reachable_stores_keep_keys_unique session_store session_store_reachable)
    as Hok.
  destruct session_store_tables as (Hids & Hemails & Hlinks & _ & Hcodes & Hclicks & _).
  split; [exact session_store_reachable|].
  split; [by rewrite <- (length_fmap user_id), Hids|].
  split; [by rewrite <- (length_fmap link_id), Hlinks|].
  split; [by rewrite <- (length_fmap click_id), Hclicks|].
  split; [exact Hok|].
  destruct Hok as (Hu & He & Hl & Hc & Hk).
  rewrite Hids in Hu. rewrite Hemails in He. rewrite Hlinks in Hl.
  rewrite Hcodes in Hc. rewrite Hclicks in Hk.
  split; [exact Hu|]. split; [exact He|]. split; [exact Hl|].
  split; [exact Hc | exact Hk].
Defined.

Lemma X13_witness :
  reachable session_store /\
  @foreign_keys Demo.platform = true /\
  length (links session_store) = 2%nat /\ length (clicks session_store) = 3%nat /\
  references_ok session_store /\
  (forall c, c ∈ clicks session_store ->
     click_link_id c ∈ ["pxJACKVERY"; "MINDBUSHWO"]) /\
  (forall l, l ∈ links session_store ->
     link_user_id l ∈ ["useandom-2"; "T198340PX7"]).
Proof.
  pose proof (X13_reachable_stores_keep_references session_store session_store_reachable)
    as Hok.
  destruct session_store_tables as (Hids & _ & Hlinks & _ & _ & Hclicks & _).
  split; [exact session_store_reachable|]. split; [reflexivity|].
  split; [by rewrite <- (length_fmap link_id), Hlinks|].
  split; [by rewrite <- (length_fmap click_id), Hclicks|].
  split; [exact Hok|].
  destruct Hok as [Hc Hl]. split.
  - intros c Hin. rewrite <- Hlinks. exact (Hc c Hin).
  - intros l Hin. rewrite <- Hids. exact (Hl eq_refl l Hin).
Defined.

Lemma X14_witness :
  grows_by_at_most_one (clicks Demo.world)
    (clicks (snd (server (GetShortCode alice_headers "abc123") Demo.world))) /\
  snd (server (GetAnalytics "L000000001") Demo.world) = Demo.world.
Proof.
  destruct (X14_requests_only_append (GetShortCode alice_headers "abc123") Demo.world
              (snd (server (GetShortCode alice_headers "abc123") Demo.world)))
    as (_ & _ & Hclicks & _); [by left|].
  destruct (X14_requests_only_append (GetAnalytics "L000000001") Demo.world
              (snd (server (GetAnalytics "L000000001") Demo.world)))
    as (_ & _ & _ & _ & Hsame); [by left|].
  split; [exact Hclicks | exact Hsame].
Defined.

Lemma X16_witness :
  exists body w1 rows link,
    server (PostLinks alice_headers (Some page) None (Some "promo1")) Demo.world =
      (ResJson 200 body, w1) /\
    server (GetLinks alice_headers) w1 =
      (ResJson 200 (success_body (JArr ((fun l => JObj (link_fields l)) <$> rows))), w1) /\
    link ∈ rows /\ short_code link = "promo1" /\ original_url link = page.
Proof.
  destruct demo_post_links_promo as (body & Hrun).
  assert (Hne : alice_token <> "") by done.
  destruct (X16_created_link_is_listed alice_headers alice_token
              (mkPayload "u000000001" "a@x.com") page None (Some "promo1") Demo.world
              body _ eq_refl Hne eq_refl Hrun
              (snd (server (PostLinks alice_headers (Some page) None (Some "promo1"))
                      Demo.world))
              [] (eq_sym (app_nil_r _)) eq_refl)
    as (rows & link & Hlist & Hin & Hcode & Hurl & _).
  by eexists body, _, rows, link.
Defined.

Lemma X17_witness :
  exists body w1 w3,
    server (PostRegister (Some "b@x.com") (Some "secret1")) Demo.world =
      (ResJson 200 body, w1) /\
    server (PostRegister (Some "b@x.com") (Some "another-pass")) w1 =
      (ResJson 400 (error_body "Email already registered"), w3) /\
    users w3 = users w1.
Proof.
  destruct (X17_registered_email_is_taken _ _ _ _ _ demo_register_b)
    as (_ & _ & _ & Hagain).
  destruct (Hagain "another-pass"
              (snd (server (PostRegister (Some "b@x.com") (Some "secret1")) Demo.world))
              [] (eq_sym (app_nil_r _)))
    as (w3 & Hrun & Husers & _); [simpl; lia|].
  eexists _, _, w3. split; [exact demo_register_b|]. done.
Defined.

Lemma X18_witness :
  exists body w1 rows,
    server (PostRegister (Some "b@x.com") (Some "secret1")) Demo.world =
      (ResJson 200 body, w1) /\
    server (GetLinks (mkHeaders (Some "Bearer 1111111111.useandom-2b@x.com") None None)) w1 =
      (ResJson 200 (success_body (JArr ((fun l => JObj (link_fields l)) <$> rows))), w1).
Proof.
  destruct (X18_registration_token_authenticates _ _ _ _ _ demo_register_b)
    as (id & token & Hbody & Htoken & _ & Huse).
  injection Hbody as <- <-.
  destruct (Huse None None
              (snd (server (PostRegister (Some "b@x.com") (Some "secret1")) Demo.world)))
    as (rows & Hrun & _); [reflexivity | done | reflexivity |].
  eexists _, _, rows. split; [exact demo_register_b | exact Hrun].
Defined.

Lemma X19_witness :
  exists body w1 w3,
    createLink "u000000001" (Some page) None (Some "promo1") Demo.world =
      (Ok (ResJson 200 body), w1) /\
    createLink "demo-user" (Some "https://example.org/other") (Some "Mine") (Some "promo1") w1 =
      (Ok (ResJson 400 (error_body "Short code already exists")), w3) /\
    links w3 = links w1.
Proof.
  destruct demo_createLink_promo as (body & Hrun).
  assert (Hcode : chosen_code (Some "promo1") Demo.world <> "") by done.
  assert (Hurl : "https://example.org/other" <> "") by done.
  destruct (X19_created_code_is_taken _ _ _ _ _ _ _ Hrun Hcode
              "demo-user" "https://example.org/other" (Some "Mine")
              (snd (createLink "u000000001" (Some page) None (Some "promo1") Demo.world))
              [] (eq_sym (app_nil_r _)) Hurl)
    as (w3 & Hagain & _ & Hlinks & _).
  by eexists body, _, w3.
Defined.
